(** * ShopSmart POS client: the "Add Product" form

    A shallow embedding of [client/src/components/AddProductForm.jsx]:
    the field rule set [INPUT_FIELDS], the change handler [handleChange]
    and the submit handler [handleSubmit], together with the parts of the
    JavaScript runtime they rely on ([String.prototype.trim], [parseInt],
    [parseFloat], the comparison of Numbers).

    JavaScript strings are sequences of UTF-16 code units; Numbers are
    IEEE 754 binary64 values, modelled by their exact rational value with
    the rounding to binary64 written out. *)

From Stdlib Require Import ZArith QArith Qcanon Lia List String Ascii Bool.
From Stdlib Require Import Floats.SpecFloat.
From stdpp Require Import base decidable countable functions gmap.
Import ListNotations.

Local Open Scope Z_scope.

(** ** JavaScript strings *)

Module JSString.

(** A string value is a finite sequence of 16-bit code units. *)
Definition jsstring : Type := list N.

(** A string literal of the source (all of them are ASCII). *)
Fixpoint lit (s : string) : jsstring :=
  match s with
  | EmptyString => []
  | String c s' => N_of_ascii c :: lit s'
  end.

(** [s.length] *)
Definition length (s : jsstring) : Z := Z.of_nat (List.length s).

(** Truthiness of a string: only the empty string is falsy. *)
Definition truthy (s : jsstring) : bool :=
  match s with [] => false | _ :: _ => true end.

(** WhiteSpace and LineTerminator code points of ECMAScript: TAB, LF, VT,
    FF, CR, SP, NBSP, the Unicode space separators, LS, PS and ZWNBSP. *)
Definition is_whitespace (c : N) : bool :=
  (((9 <=? c) && (c <=? 13)) || (c =? 32) || (c =? 160) || (c =? 5760)
   || ((8192 <=? c) && (c <=? 8202)) || (c =? 8232) || (c =? 8233)
   || (c =? 8239) || (c =? 8287) || (c =? 12288) || (c =? 65279))%N.

Fixpoint trim_start (s : jsstring) : jsstring :=
  match s with
  | [] => []
  | c :: s' => if is_whitespace c then trim_start s' else s
  end.

Definition trim_end (s : jsstring) : jsstring :=
  rev (trim_start (rev s)).

(** [s.trim()] *)
Definition trim (s : jsstring) : jsstring := trim_end (trim_start s).

(** [s.startsWith(p)], with the rest of the string when it does. *)
Fixpoint strip_prefix (p s : jsstring) : option jsstring :=
  match p, s with
  | [], _ => Some s
  | a :: p', b :: s' => if (a =? b)%N then strip_prefix p' s' else None
  | _ :: _, [] => None
  end.

End JSString.
Import JSString.

(** ** JavaScript Numbers *)

Module JSNumber.

(** A Number is NaN, an infinity, negative zero, or a finite binary64
    value given by its exact rational value in lowest terms ([Fin 0] is
    positive zero). *)
Inductive Number : Type :=
| NaN
| Infinity (neg : bool)
| NegZero
| Fin (q : Q).

Definition of_Z (n : Z) : Number := Fin (inject_Z n).

Definition Qltb (x y : Q) : bool := Qnum x * QDen y <? Qnum y * QDen x.

(** [isNaN(x)] for a Number [x]. *)
Definition isNaN (x : Number) : bool :=
  match x with NaN => true | _ => false end.

(** [x < y] on Numbers: false as soon as one side is NaN; the two zeros
    are equal. *)
Definition lessThan (x y : Number) : bool :=
  match x, y with
  | NaN, _ | _, NaN => false
  | _, Infinity true => false
  | Infinity true, _ => true
  | Infinity false, _ => false
  | _, Infinity false => true
  | NegZero, NegZero => false
  | NegZero, Fin q => Qltb 0 q
  | Fin p, NegZero => Qltb p 0
  | Fin p, Fin q => Qltb p q
  end.

(** [x > y] is [y < x]. *)
Definition greaterThan (x y : Number) : bool := lessThan y x.

(** [x <= y]: neither is NaN and [y < x] fails. *)
Definition lessThanOrEqual (x y : Number) : bool :=
  negb (isNaN x) && negb (isNaN y) && negb (lessThan y x).

(** [Number.isFinite(x)] *)
Definition isFinite (x : Number) : bool :=
  match x with
  | NegZero | Fin _ => true
  | _ => false
  end.

(** [Number.isInteger(x)] *)
Definition isInteger (x : Number) : bool :=
  match x with
  | NegZero => true
  | Fin q => (Qden q =? 1)%positive
  | _ => false
  end.

(** *** Rounding a rational to binary64, ties to even *)

Definition signed_zero (neg : bool) : Number :=
  if neg then NegZero else Fin 0.

(** [(p', q')] with [p'/q' = (p/q) / 2^e]. *)
Definition scale2 (p q e : Z) : Z * Z :=
  if 0 <=? e then (p, q * 2 ^ e) else (p * 2 ^ (- e), q).

(** The largest [k] with [2^k <= p/q], for positive [p] and [q]. *)
Definition floor_log2 (p q : Z) : Z :=
  let k := Z.log2 p - Z.log2 q in
  let '(p', q') := scale2 p q k in
  if q' <=? p' then k else k - 1.

(** The integer nearest to [p/q], the even one when two are as near. *)
Definition round_half_even (p q : Z) : Z :=
  let m := p / q in
  match 2 * (p mod q) ?= q with
  | Lt => m
  | Eq => if Z.even m then m else m + 1
  | Gt => m + 1
  end.

(** The rational [m * 2^e] in lowest terms. *)
Definition dyadic (m e : Z) : Q :=
  if 0 <=? e then inject_Z (m * 2 ^ e)
  else Qred (m # Z.to_pos (2 ^ (- e))).

(** The binary64 value nearest to [(-1)^neg * p/q] ([0 <= p], [0 < q]):
    53 significant bits, least exponent -1074 (subnormals included),
    overflow to an infinity from [2^1024] on. *)
Definition to_double (neg : bool) (p q : Z) : Number :=
  if p =? 0 then signed_zero neg
  else
    let e := Z.max (floor_log2 p q - 52) (- 1074) in
    let '(p', q') := scale2 p q e in
    let m := round_half_even p' q' in
    if m =? 0 then signed_zero neg
    else if (0 <=? e) && (2 ^ 1024 <=? m * 2 ^ e) then Infinity neg
    else Fin (if neg then Qopp (dyadic m e) else dyadic m e).

Definition signed (neg : bool) (z : Z) : Z := if neg then - z else z.

(** The value of the decimal [(-1)^neg * m * 10^e]. *)
Definition of_decimal (neg : bool) (m e : Z) : Number :=
  if 0 <=? e then to_double neg (m * 10 ^ e) 1
  else to_double neg m (10 ^ (- e)).

(** *** Number parsing *)

Definition digit_value (radix c : N) : option Z :=
  let d :=
    if ((48 <=? c) && (c <=? 57))%N then Some (c - 48)%N
    else if ((97 <=? c) && (c <=? 122))%N then Some (c - 87)%N
    else if ((65 <=? c) && (c <=? 90))%N then Some (c - 55)%N
    else None in
  match d with
  | Some v => if (v <? radix)%N then Some (Z.of_N v) else None
  | None => None
  end.

(** The longest prefix of radix-[radix] digits, as digit values, and the
    rest of the string. *)
Fixpoint span_digits (radix : N) (s : jsstring) : list Z * jsstring :=
  match s with
  | [] => ([], [])
  | c :: s' =>
      match digit_value radix c with
      | Some d => let '(ds, r) := span_digits radix s' in (d :: ds, r)
      | None => ([], s)
      end
  end.

Definition digits_value (radix : N) (ds : list Z) : Z :=
  fold_left (fun acc d => acc * Z.of_N radix + d) ds 0.

Definition strip_sign (s : jsstring) : bool * jsstring :=
  match s with
  | 45%N :: r => (true, r)
  | 43%N :: r => (false, r)
  | _ => (false, s)
  end.

(** The sign and the mathematical integer that [parseInt(str)] reads
    (radix argument absent): leading white space is skipped, a sign is
    taken, a [0x]/[0X] prefix selects radix 16, and the digits up to the
    first character that is not one are used; [None] when there is no
    digit.  The digits are valued exactly, which ECMAScript allows for any
    number of digits. *)
Definition parseInt_math (str : jsstring) : option (bool * Z) :=
  let '(neg, s) := strip_sign (trim_start str) in
  let '(radix, s) :=
    match s with
    | 48%N :: x :: r =>
        if ((x =? 120) || (x =? 88))%N then (16%N, r) else (10%N, s)
    | _ => (10%N, s)
    end in
  match fst (span_digits radix s) with
  | [] => None
  | ds => Some (neg, digits_value radix ds)
  end.

(** [parseInt(str)] *)
Definition parseInt (str : jsstring) : Number :=
  match parseInt_math str with
  | None => NaN
  | Some (neg, n) => to_double neg n 1
  end.

(** The exponent part [e|E, sign?, digits+] at the head of [s], if any. *)
Definition exponent_part (s : jsstring) : Z :=
  match s with
  | c :: r =>
      if ((c =? 101) || (c =? 69))%N then
        let '(neg, r') := strip_sign r in
        match fst (span_digits 10 r') with
        | [] => 0
        | ds => if neg then - digits_value 10 ds else digits_value 10 ds
        end
      else 0
  | [] => 0
  end.

(** [parseFloat(str)]: the longest prefix of the trimmed string that is
    a StrDecimalLiteral ([Infinity], or digits with an optional fraction
    and exponent part, after an optional sign), its exact value rounded to
    binary64. *)
Definition parseFloat (str : jsstring) : Number :=
  let '(neg, s) := strip_sign (trim_start str) in
  match strip_prefix (lit "Infinity") s with
  | Some _ => Infinity neg
  | None =>
      let '(ip, r1) := span_digits 10 s in
      let '(fp, r2) :=
        match r1 with
        | 46%N :: r => span_digits 10 r
        | _ => ([], r1)
        end in
      match ip ++ fp with
      | [] => NaN
      | ds =>
          of_decimal neg (digits_value 10 ds)
            (exponent_part r2 - Z.of_nat (List.length fp))
      end
  end.

End JSNumber.
Import JSNumber.

(** ** The field rule set *)

(** The identifiers of the five inputs; every [name] of a change event and
    every key of the draft is one of them. *)
Inductive FieldId : Type :=
| pName
| unitPrice
| inStockCount
| lowStockCount
| categoryID.

Global Instance FieldId_eq_dec : EqDecision FieldId.
Proof. solve_decision. Defined.

Definition FieldId_code (f : FieldId) : positive :=
  match f with
  | pName => 1 | unitPrice => 2 | inStockCount => 3
  | lowStockCount => 4 | categoryID => 5
  end%positive.

Definition FieldId_decode (p : positive) : option FieldId :=
  match p with
  | 1 => Some pName | 2 => Some unitPrice | 3 => Some inStockCount
  | 4 => Some lowStockCount | 5 => Some categoryID | _ => None
  end%positive.

Global Instance FieldId_countable : Countable FieldId.
Proof.
  refine (Build_Countable _ _ FieldId_code FieldId_decode _).
  intros []; reflexivity.
Defined.

(** The draft: an object with exactly the five keys, each holding the
    string typed into the input. *)
Definition FormData : Type := FieldId -> jsstring.

Definition INITIAL_FORM_STATE : FormData :=
  fun key =>
    match key with
    | pName => lit ""
    | unitPrice => lit ""
    | inStockCount => lit ""
    | lowStockCount => lit ""
    | categoryID => lit ""
    end.

(** The numeric literal [999999.99] of the source. *)
Definition lit_999999_99 : Number := of_decimal false 99999999 (- 2).

Definition validate_pName (value : jsstring) (formData : FormData) : jsstring :=
  if negb (truthy (trim value)) then lit "Product name is required"
  else if 100 <? JSString.length value
       then lit "Product name cannot exceed 100 characters"
       else lit "".

Definition validate_unitPrice (value : jsstring) (formData : FormData) : jsstring :=
  let price := parseFloat value in
  if negb (truthy value) then lit "Unit price is required"
  else if isNaN price || lessThan price (of_Z 0)
       then lit "Please enter a valid positive price"
       else if greaterThan price lit_999999_99 then lit "Price is too high"
            else lit "".

Definition validate_inStockCount (value : jsstring) (formData : FormData) : jsstring :=
  let count := parseInt value in
  if negb (truthy value) then lit "Stock count is required"
  else if isNaN count || lessThan count (of_Z 0)
       then lit "Please enter a valid positive number"
       else if greaterThan count (of_Z 2147483647)
            then lit "Stock count is too high"
            else lit "".

Definition validate_lowStockCount (value : jsstring) (formData : FormData) : jsstring :=
  let count := parseInt value in
  if negb (truthy value) then lit "Low stock threshold is required"
  else if isNaN count || lessThan count (of_Z 0)
       then lit "Please enter a valid positive number"
       else if greaterThan count (parseInt (formData inStockCount))
            then lit "Low stock alert cannot be higher than current stock"
            else lit "".

Definition validate_categoryID (value : jsstring) (formData : FormData) : jsstring :=
  let categoryId := parseInt value in
  if negb (truthy value) then lit "Category ID is required"
  else if isNaN categoryId || lessThan categoryId (of_Z 1000)
          || greaterThan categoryId (of_Z 9999)
       then lit "Please enter a valid 4-digit category ID (1000-9999)"
       else lit "".

Module InputField.
(** One descriptor of [INPUT_FIELDS]. *)
Record t : Type := Build {
  id : FieldId;
  label : jsstring;
  type : jsstring;
  min : option jsstring;
  max : option jsstring;
  step : option jsstring;
  placeholder : option jsstring;
  validate : jsstring -> FormData -> jsstring;
}.
End InputField.

Definition INPUT_FIELDS : list InputField.t :=
  [ InputField.Build pName (lit "Product Name") (lit "text")
      None None None None validate_pName;
    InputField.Build unitPrice (lit "Unit Price") (lit "number")
      (Some (lit "0")) None (Some (lit "0.01")) None validate_unitPrice;
    InputField.Build inStockCount (lit "Current Stock Count") (lit "number")
      (Some (lit "0")) None None None validate_inStockCount;
    InputField.Build lowStockCount (lit "Low Stock Alert Threshold")
      (lit "number") (Some (lit "0")) None None None validate_lowStockCount;
    InputField.Build categoryID (lit "Category ID (4 digits)") (lit "number")
      (Some (lit "1000")) (Some (lit "9999")) None (Some (lit "1000-9999"))
      validate_categoryID ].

(** ** The form controller *)

(** The three [useState] cells of the component. *)
Record State : Type := {
  formData : FormData;
  errors : gmap FieldId jsstring;
  isSubmitting : bool;
}.

Definition initial_state : State :=
  {| formData := INITIAL_FORM_STATE; errors := ∅; isSubmitting := false |}.

(** The body sent to the server. *)
Module ProcessedData.
Record t : Type := Build {
  pName : jsstring;
  unitPrice : Number;
  inStockCount : Number;
  lowStockCount : Number;
  categoryID : Number;
}.
End ProcessedData.

Record ToastOptions : Type := {
  toast_id : option jsstring;
  duration : option Z;
}.

(** What a handler does to the outside, in order.  The [console] calls,
    which only print diagnostics, are left out. *)
Inductive Effect : Type :=
| preventDefault
| toast_error (msg : jsstring) (opts : option ToastOptions)
| toast_loading (msg : jsstring) (opts : option ToastOptions)
| toast_success (msg : jsstring) (opts : option ToastOptions)
| axios_post (url : jsstring) (data : ProcessedData.t)
| onClose.

(** The rejection value of [axios.post]: [response] is absent when no
    answer came back, [data] when the answer has no body, [message] when
    the body has no such field; a [message] is a string, as in the
    server's error body [{ message: string }]. *)
Record ResponseBody : Type := { message : option jsstring }.
Record ErrorResponse : Type := { data : option ResponseBody }.
Record AxiosError : Type := { response : option ErrorResponse }.

(** How the awaited request ends. *)
Inductive Outcome : Type :=
| Fulfilled
| Rejected (error : AxiosError).

(** [handleChange]: [formData] in the validator call is the draft of the
    render the handler was created in; the two setters run their updater
    on that same state. [None] stands for the TypeError of calling
    [validate] on a missing descriptor. *)
Definition handleChange (st : State) (name : FieldId) (value : jsstring)
  : option State :=
  let setFormData (prev : FormData) : FormData := <[name := value]> prev in
  match find (fun f => bool_decide (InputField.id f = name)) INPUT_FIELDS with
  | None => None
  | Some field =>
      let error := InputField.validate field value (formData st) in
      let setErrors (prev : gmap FieldId jsstring) := <[name := error]> prev in
      Some {| formData := setFormData (formData st);
              errors := setErrors (errors st);
              isSubmitting := isSubmitting st |}
  end.

(** The callback of the [forEach] in [handleSubmit], on the pair
    [(newErrors, isValid)]. *)
Definition validate_field (formData : FormData)
    (acc : gmap FieldId jsstring * bool) (field : InputField.t)
  : gmap FieldId jsstring * bool :=
  let '(newErrors, isValid) := acc in
  let error :=
    InputField.validate field (formData (InputField.id field)) formData in
  if truthy error
  then (<[InputField.id field := error]> newErrors, false)
  else (newErrors, isValid).

(** The [forEach] itself. *)
Definition validateAll (formData : FormData) : gmap FieldId jsstring * bool :=
  fold_left (validate_field formData) INPUT_FIELDS (∅, true).

Definition processedData (formData : FormData) : ProcessedData.t :=
  {| ProcessedData.pName := formData pName;
     ProcessedData.unitPrice := parseFloat (formData unitPrice);
     ProcessedData.inStockCount := parseInt (formData inStockCount);
     ProcessedData.lowStockCount := parseInt (formData lowStockCount);
     ProcessedData.categoryID := parseInt (formData categoryID) |}.

Definition addProduct_toast (d : option Z) : option ToastOptions :=
  Some {| toast_id := Some (lit "addProduct"); duration := d |}.

Definition endpoint : jsstring := lit "http://localhost:3000/api/products/add".

(** [handleSubmit] up to the [await]: the next state, the effects so far,
    and the request the handler is suspended on, if it got that far. *)
Definition handleSubmit_begin (st : State)
  : State * list Effect * option ProcessedData.t :=
  let '(newErrors, isValid) := validateAll (formData st) in
  let st1 := {| formData := formData st; errors := newErrors;
                isSubmitting := isSubmitting st |} in
  if negb isValid then
    (st1,
     [preventDefault;
      toast_error (lit "Please fix the form errors before submitting") None],
     None)
  else
    let st2 := {| formData := formData st1; errors := errors st1;
                  isSubmitting := true |} in
    let data := processedData (formData st) in
    (st2,
     [preventDefault;
      toast_loading (lit "Adding product...") (addProduct_toast None);
      axios_post endpoint data],
     Some data).

(** [a || b] on an optional string [a]. *)
Definition or_else (a : option jsstring) (b : jsstring) : jsstring :=
  match a with
  | Some s => if truthy s then s else b
  | None => b
  end.

(** [error.response?.data?.message] *)
Definition server_message (error : AxiosError) : option jsstring :=
  r ← response error; d ← data r; message d.

(** [error.response?.data?.message || "Failed to add product"] *)
Definition errorMessage (error : AxiosError) : jsstring :=
  or_else (server_message error) (lit "Failed to add product").

(** [handleSubmit] from the [await] on: [try] / [catch] / [finally]. *)
Definition handleSubmit_settle (st : State) (o : Outcome)
  : State * list Effect :=
  let '(st1, effs) :=
    match o with
    | Fulfilled =>
        ({| formData := INITIAL_FORM_STATE; errors := errors st;
            isSubmitting := isSubmitting st |},
         [toast_success (lit "Successfully added the product!")
            (addProduct_toast (Some 3000));
          onClose])
    | Rejected error =>
        (st, [toast_error (errorMessage error) (addProduct_toast (Some 3000))])
    end in
  ({| formData := formData st1; errors := errors st1; isSubmitting := false |},
   effs).

(** One whole run of [handleSubmit], the request ending in [o]. *)
Definition handleSubmit (st : State) (o : Outcome) : State * list Effect :=
  let '(st1, effs1, pending) := handleSubmit_begin st in
  match pending with
  | None => (st1, effs1)
  | Some _ =>
      let '(st2, effs2) := handleSubmit_settle st1 o in
      (st2, effs1 ++ effs2)
  end.

(** Every rule of [INPUT_FIELDS] accepts its own entry of the draft. *)
Definition all_valid (formData : FormData) : Prop :=
  forall field, In field INPUT_FIELDS ->
    InputField.validate field (formData (InputField.id field)) formData
      = lit "".

(** The requests among a list of effects. *)
Definition posts (effs : list Effect) : list (jsstring * ProcessedData.t) :=
  flat_map
    (fun e => match e with axios_post url d => [(url, d)] | _ => [] end)
    effs.

(** *** The controller as a transition system *)

(** A configuration: the component state and the request a suspended
    [handleSubmit] waits for. *)
Record Config : Type := {
  ui : State;
  pending : option ProcessedData.t;
}.

Inductive Input : Type :=
| Change (name : FieldId) (value : jsstring)
| Submit
| Settle (o : Outcome).

(** The inputs and buttons carry [disabled={isSubmitting}], so change and
    submit events arrive only while the flag is down; a request settles
    only while one is pending. *)
Inductive step : Config -> Input -> list Effect -> Config -> Prop :=
| step_change c name value st' :
    isSubmitting (ui c) = false ->
    handleChange (ui c) name value = Some st' ->
    step c (Change name value) [] {| ui := st'; pending := pending c |}
| step_submit c st' effs req :
    isSubmitting (ui c) = false ->
    handleSubmit_begin (ui c) = (st', effs, req) ->
    step c Submit effs {| ui := st'; pending := req |}
| step_settle c o data st' effs :
    pending c = Some data ->
    handleSubmit_settle (ui c) o = (st', effs) ->
    step c (Settle o) effs {| ui := st'; pending := None |}.

Definition initial_config : Config :=
  {| ui := initial_state; pending := None |}.

Inductive reachable : Config -> Prop :=
| reachable_init : reachable initial_config
| reachable_step c i effs c' :
    reachable c -> step c i effs c' -> reachable c'.

Definition accepts (formData : FormData) (field : InputField.t) : bool :=
  negb (truthy (InputField.validate field
                  (formData (InputField.id field)) formData)).

Definition validation_toast : Effect :=
  toast_error (lit "Please fix the form errors before submitting") None.

Definition loading_toast : Effect :=
  toast_loading (lit "Adding product...") (addProduct_toast None).

(** ** Sample inputs *)

Definition formData_stock_10 : FormData :=
  <[inStockCount := lit "10"]> INITIAL_FORM_STATE.

Definition long_name : jsstring := repeat 97%N 101.

Definition valid_draft : FormData :=
  fun key =>
    match key with
    | pName => lit "Green tea"
    | unitPrice => lit "2.50"
    | inStockCount => lit "10"
    | lowStockCount => lit "3"
    | categoryID => lit "1234"
    end.

Definition valid_draft_3 : FormData :=
  <[inStockCount := lit "3"]> valid_draft.

Definition valid_state : State :=
  {| formData := valid_draft; errors := ∅; isSubmitting := false |}.

Definition error_with_message (m : option jsstring) : AxiosError :=
  {| response := Some {| data := Some {| message := m |} |} |}.

Definition draft_without_stock : FormData :=
  fun key =>
    match key with
    | pName => lit "Green tea"
    | unitPrice => lit "2.50"
    | inStockCount => lit ""
    | lowStockCount => lit "7"
    | categoryID => lit "1234"
    end.

(** ** Stdlib's IEEE 754 model, for comparison *)

(** The Number that a [spec_float] of Stdlib's [SpecFloat] denotes. *)
Definition of_spec_float (f : spec_float) : Number :=
  match f with
  | S754_zero s => signed_zero s
  | S754_infinity s => Infinity s
  | S754_nan => NaN
  | S754_finite s m e =>
      Fin (if s then Qopp (dyadic (Zpos m) e) else dyadic (Zpos m) e)
  end.

Definition Number_eqb (x y : Number) : bool :=
  match x, y with
  | NaN, NaN | NegZero, NegZero => true
  | Infinity s, Infinity t => Bool.eqb s t
  | Fin p, Fin q => (Qnum p =? Qnum q) && (Qden p =? Qden q)%positive
  | _, _ => false
  end.

(** Integers around the precision limit, ties, and the overflow
    threshold. *)
Definition sample_integers : list Z :=
  [1; 10; 1000; 9999; 2147483647; 2147483648;
   2 ^ 53 - 1; 2 ^ 53; 2 ^ 53 + 1; 2 ^ 53 + 2; 2 ^ 53 + 3;
   2 ^ 54 + 1; 2 ^ 54 + 2; 2 ^ 54 + 6; 10 ^ 22; 10 ^ 23; 10 ^ 30 + 7;
   2 ^ 1024 - 2 ^ 970 - 1; 2 ^ 1024 - 2 ^ 970; 2 ^ 1024; 10 ^ 309].

(** Ratios with inexact, subnormal and underflowing values. *)
Definition sample_ratios : list (Z * Z) :=
  [(1, 10); (1, 3); (2, 3); (99999999, 100); (250, 100); (10 ^ 30, 3);
   (1, 10 ^ 400); (5, 10 ^ 324); (2, 10 ^ 324); (3, 10 ^ 324);
   (24703282292062327, 10 ^ 340); (24703282292062328, 10 ^ 340);
   (22250738585072014, 10 ^ 324)].

(** ** Further definitions for the handlers *)

(** The message of each rule on the empty string. *)
Definition required_message (key : FieldId) : jsstring :=
  match key with
  | pName => lit "Product name is required"
  | unitPrice => lit "Unit price is required"
  | inStockCount => lit "Stock count is required"
  | lowStockCount => lit "Low stock threshold is required"
  | categoryID => lit "Category ID is required"
  end.

(** An entry of the error map is up to date when it is what the field's
    rule gives on the current draft. *)
Definition entry_current (st : State) (field : InputField.t) : Prop :=
  forall msg,
    errors st !! InputField.id field = Some msg ->
    msg = InputField.validate field (formData st (InputField.id field))
            (formData st).

(** A run of the controller with its inputs and their effects. *)
Inductive run : Config -> list (Input * list Effect) -> Config -> Prop :=
| run_nil c : run c [] c
| run_cons c i effs c1 tr c2 :
    step c i effs c1 -> run c1 tr c2 -> run c ((i, effs) :: tr) c2.

Definition is_settle (i : Input) : bool :=
  match i with Settle _ => true | _ => false end.

Definition settles (tr : list (Input * list Effect)) : nat :=
  List.length (List.filter (fun e => is_settle (fst e)) tr).

Definition requests (tr : list (Input * list Effect)) : nat :=
  List.length (posts (flat_map snd tr)).

Definition in_flight (c : Config) : nat :=
  match pending c with Some _ => 1 | None => 0 end.

Definition is_decimal_digit (c : N) : bool := ((48 <=? c) && (c <=? 57))%N.

(** ** The view *)

(** The functions the elements refer to. *)
Inductive Handler : Type :=
| h_onClose
| h_handleChange
| h_handleSubmit.

Inductive AttrValue : Type :=
| attr_string (s : jsstring)
| attr_bool (b : bool)
| attr_handler (h : Handler).

(** A React element tree: elements with their props in source order,
    text children and fragments. *)
#[warnings="-register-all"]
Inductive Node : Type :=
| element (tag : string) (attrs : list (string * AttrValue))
    (children : list Node)
| text (s : jsstring)
| fragment (children : list Node).

Definition attr (name : string) (v : AttrValue) : string * AttrValue :=
  (name, v).

(** The [id] strings of [INPUT_FIELDS]. *)
Definition field_name (key : FieldId) : jsstring :=
  match key with
  | pName => lit "pName"
  | unitPrice => lit "unitPrice"
  | inStockCount => lit "inStockCount"
  | lowStockCount => lit "lowStockCount"
  | categoryID => lit "categoryID"
  end.

(** A prop whose value may be [undefined], in which case it is absent. *)
Definition optional_attr (name : string) (v : option jsstring)
  : list (string * AttrValue) :=
  match v with
  | Some s => [attr name (attr_string s)]
  | None => []
  end.

(** [errors[field.id] ? "border-red-500" : "border-gray-300"] *)
Definition border_class (error : option jsstring) : jsstring :=
  match error with
  | Some e => if truthy e then lit "border-red-500" else lit "border-gray-300"
  | None => lit "border-gray-300"
  end.

(** [errors[field.id] && <p ...>{errors[field.id]}</p>]: nothing for
    [undefined], the empty string itself when the entry is empty. *)
Definition error_child (error : option jsstring) : list Node :=
  match error with
  | Some e =>
      if truthy e
      then [element "p" [attr "className" (attr_string (lit "mt-1 text-sm text-red-600"))]
              [text e]]
      else [text e]
  | None => []
  end.

(** The callback of [INPUT_FIELDS.map] in the returned JSX. *)
Definition render_field (st : State) (field : InputField.t) : Node :=
  let key := InputField.id field in
  element "div" [attr "key" (attr_string (field_name key))]
    ([ element "label"
         [attr "htmlFor" (attr_string (field_name key));
          attr "className"
            (attr_string (lit "block text-sm font-medium text-gray-700"))]
         [text (InputField.label field)];
       element "input"
         ([attr "id" (attr_string (field_name key));
           attr "name" (attr_string (field_name key));
           attr "type" (attr_string (InputField.type field));
           attr "value" (attr_string (formData st key));
           attr "onChange" (attr_handler h_handleChange)]
          ++ optional_attr "min" (InputField.min field)
          ++ optional_attr "max" (InputField.max field)
          ++ optional_attr "step" (InputField.step field)
          ++ optional_attr "placeholder" (InputField.placeholder field)
          ++ [attr "disabled" (attr_bool (isSubmitting st));
              attr "className"
                (attr_string
                 (lit "mt-1 block w-full rounded-md p-2 border "
                  ++ border_class (errors st !! key)
                  ++ lit " focus:border-blue-500 focus:ring-1 focus:ring-blue-500 disabled:bg-gray-100 disabled:cursor-not-allowed"))])
         [] ]
     ++ error_child (errors st !! key)).

(** The content of the submit button. *)
Definition submit_content (isSubmitting : bool) : Node :=
  if isSubmitting then
    fragment
      [element "div" [attr "className" (attr_string (lit "flex items-center gap-2"))]
         [element "svg"
            [attr "className"
               (attr_string
                (lit "animate-spin h-5 w-5 text-white transition-all duration-300"));
             attr "xmlns" (attr_string (lit "http://www.w3.org/2000/svg"));
             attr "fill" (attr_string (lit "none"));
             attr "viewBox" (attr_string (lit "0 0 24 24"))]
            [element "circle"
               [attr "className" (attr_string (lit "opacity-25"));
                attr "cx" (attr_string (lit "12"));
                attr "cy" (attr_string (lit "12"));
                attr "r" (attr_string (lit "10"));
                attr "stroke" (attr_string (lit "currentColor"));
                attr "strokeWidth" (attr_string (lit "4"))]
               [];
             element "path"
               [attr "className" (attr_string (lit "opacity-75"));
                attr "fill" (attr_string (lit "currentColor"));
                attr "d"
                  (attr_string
                   (lit "M4 12a8 8 0 018-8V0C5.373 0 0 5.373 0 12h4zm2 5.291A7.962 7.962 0 014 12H0c0 3.042 1.135 5.824 3 7.938l3-2.647z"))]
               []];
          element "span" [attr "className" (attr_string (lit "animate-pulse"))]
            [text (lit "Adding...")]]]
  else
    element "div" [attr "className" (attr_string (lit "flex items-center gap-2"))]
      [element "span" [] [text (lit "Add Product")]].

(** The three buttons: the X of the header, Cancel and the submit
    button. *)
Definition close_button (st : State) : Node :=
  element "button"
    [attr "onClick" (attr_handler h_onClose);
     attr "className" (attr_string (lit "text-gray-500 hover:text-gray-700"));
     attr "disabled" (attr_bool (isSubmitting st))]
    [element "X" [attr "className" (attr_string (lit "w-5 h-5"))] []].

Definition cancel_button (st : State) : Node :=
  element "button"
    [attr "type" (attr_string (lit "button"));
     attr "onClick" (attr_handler h_onClose);
     attr "disabled" (attr_bool (isSubmitting st));
     attr "className"
       (attr_string
          (lit "px-4 py-2 border border-gray-300 text-gray-700 rounded-md hover:bg-gray-50 disabled:bg-gray-100 disabled:cursor-not-allowed"))]
    [text (lit "Cancel")].

Definition submit_button (st : State) : Node :=
  element "button"
    [attr "type" (attr_string (lit "submit"));
     attr "disabled" (attr_bool (isSubmitting st));
     attr "className"
       (attr_string
          (lit "px-4 py-2 bg-blue-600 text-white rounded-md hover:bg-blue-700 disabled:bg-blue-400 disabled:cursor-not-allowed flex items-center justify-center min-w-[100px] transition-all duration-200 ease-in-out"))]
    [submit_content (isSubmitting st)].

(** The element tree that [AddProductForm] returns. *)
Definition render (st : State) : Node :=
  element "div" []
    [ element "div"
        [attr "className"
           (attr_string (lit "flex justify-between items-center mb-4"))]
        [ element "h3"
            [attr "className" (attr_string (lit "text-lg font-semibold"))]
            [text (lit "Add New Product")];
          close_button st ];
      element "form"
        [attr "onSubmit" (attr_handler h_handleSubmit);
         attr "className" (attr_string (lit "space-y-4"))]
        [ element "div"
            [attr "className" (attr_string (lit "grid grid-cols-1 gap-4"))]
            (map (render_field st) INPUT_FIELDS);
          element "div"
            [attr "className"
               (attr_string (lit "flex justify-end gap-2 mt-6"))]
            [ cancel_button st; submit_button st ] ] ].

(** *** Reading a tree *)

Definition get_attr (name : string) (n : Node) : option AttrValue :=
  match n with
  | element _ attrs _ =>
      option_map snd (find (fun a => String.eqb (fst a) name) attrs)
  | _ => None
  end.

Definition is_control (tag : string) : bool :=
  String.eqb tag "input" || String.eqb tag "button".

(** The [input] and [button] elements of a tree, in document order. *)
Fixpoint controls (n : Node) : list Node :=
  match n with
  | element tag attrs children =>
      (if is_control tag then [n] else []) ++ flat_map controls children
  | text _ => []
  | fragment children => flat_map controls children
  end.

(** The text below a node, in document order. *)
Fixpoint texts (n : Node) : list jsstring :=
  match n with
  | element _ _ children | fragment children => flat_map texts children
  | text s => [s]
  end.

(** The texts of the [p] elements of a tree. *)
Fixpoint paragraphs (n : Node) : list jsstring :=
  match n with
  | element tag _ children =>
      if String.eqb tag "p" then flat_map texts children
      else flat_map paragraphs children
  | text _ => []
  | fragment children => flat_map paragraphs children
  end.

Definition button_texts (n : Node) : list jsstring :=
  flat_map
    (fun c => match c with
              | element tag _ _ =>
                  if String.eqb tag "button" then texts c else []
              | _ => []
              end)
    (controls n).

(** The messages shown under the inputs for an error map. *)
Definition shown_error (error : option jsstring) : list jsstring :=
  match error with
  | Some e => if truthy e then [e] else []
  | None => []
  end.

Definition busy (c : Config) : bool :=
  match pending c with Some _ => true | None => false end.

(** The name and the displayed value of each input of a tree. *)
Definition input_values (n : Node) : list (jsstring * jsstring) :=
  flat_map
    (fun c => match get_attr "name" c, get_attr "value" c with
              | Some (attr_string k), Some (attr_string v) => [(k, v)]
              | _, _ => []
              end)
    (controls n).

(** ** The page around the form *)

Definition is_onClose (e : Effect) : bool :=
  match e with onClose => true | _ => false end.

(** [ProductTable]: its [showAddForm] cell and, while the form is
    mounted, the configuration of the form. *)
Record Page : Type := {
  showAddForm : bool;
  form : option Config;
}.

(** The page as first rendered, and whenever the modal is closed. *)
Definition closed_page : Page := {| showAddForm := false; form := None |}.

Inductive PageInput : Type :=
| ClickAddProduct
| ClickClose
| InForm (i : Input).

(** The "Add Product" button calls [setShowAddForm(true)], which mounts
    the form in its initial state unless it is mounted already; the X and
    Cancel buttons call [onClose] and are disabled while submitting; an
    [onClose] from the form, like theirs, calls [setShowAddForm(false)]
    and unmounts the form. *)
Inductive page_step : Page -> PageInput -> list Effect -> Page -> Prop :=
| page_open p :
    page_step p ClickAddProduct []
      {| showAddForm := true;
         form := Some (match form p with
                       | Some c => c
                       | None => initial_config
                       end) |}
| page_close p c :
    form p = Some c -> isSubmitting (ui c) = false ->
    page_step p ClickClose [onClose] closed_page
| page_form p c i effs c' :
    form p = Some c -> step c i effs c' ->
    page_step p (InForm i) effs
      (if existsb is_onClose effs then closed_page
       else {| showAddForm := true; form := Some c' |}).

Inductive page_reachable : Page -> Prop :=
| page_reachable_init : page_reachable closed_page
| page_reachable_step p i effs p' :
    page_reachable p -> page_step p i effs p' -> page_reachable p'.

(** ** Sample inputs for the further properties *)

Definition pName_field : InputField.t :=
  InputField.Build pName (lit "Product Name") (lit "text")
    None None None None validate_pName.

Definition unitPrice_field : InputField.t :=
  InputField.Build unitPrice (lit "Unit Price") (lit "number")
    (Some (lit "0")) None (Some (lit "0.01")) None validate_unitPrice.

Definition state_after_price : State :=
  {| formData := <[unitPrice := lit "-1"]> INITIAL_FORM_STATE;
     errors := <[unitPrice := lit "Please enter a valid positive price"]> ∅;
     isSubmitting := false |}.

Definition config_after_price : Config :=
  {| ui := state_after_price; pending := None |}.

Definition submitting_config : Config :=
  {| ui := {| formData := valid_draft; errors := ∅; isSubmitting := true |};
     pending := Some (processedData valid_draft) |}.

Definition open_page : Page :=
  {| showAddForm := true; form := Some initial_config |}.

(** *** A session: five changes, a submit, a rejection, a second submit *)

(** The state after a change event (that of [handleChange], which always
    returns one). *)
Definition type_into (st : State) (name : FieldId) (value : jsstring)
  : State :=
  match handleChange st name value with
  | Some st' => st'
  | None => st
  end.

Definition type_config (c : Config) (name : FieldId) (value : jsstring)
  : Config :=
  {| ui := type_into (ui c) name value; pending := pending c |}.

Definition typed_1 : Config :=
  type_config initial_config pName (lit "Green tea").
Definition typed_2 : Config := type_config typed_1 unitPrice (lit "2.50").
Definition typed_3 : Config := type_config typed_2 inStockCount (lit "10").
Definition typed_4 : Config := type_config typed_3 lowStockCount (lit "3").

(** The form with a valid draft typed in, nothing sent yet. *)
Definition typed_config : Config :=
  type_config typed_4 categoryID (lit "1234").

Definition typed_body : ProcessedData.t :=
  processedData (formData (ui typed_config)).

Definition submit_effects : list Effect :=
  [preventDefault;
   toast_loading (lit "Adding product...") (addProduct_toast None);
   axios_post endpoint typed_body].

(** The same form after the submit, waiting for the answer. *)
Definition pending_config : Config :=
  {| ui := {| formData := formData (ui typed_config); errors := ∅;
              isSubmitting := true |};
     pending := Some typed_body |}.

Definition sample_error : AxiosError :=
  error_with_message (Some (lit "Category not found")).

(** The form after the request has settled in [o]. *)
Definition settled_config (o : Outcome) : Config :=
  {| ui := fst (handleSubmit_settle (ui pending_config) o);
     pending := None |}.

Definition sample_run : list (Input * list Effect) :=
  [(Change pName (lit "Green tea"), []);
   (Change unitPrice (lit "2.50"), []);
   (Change inStockCount (lit "10"), []);
   (Change lowStockCount (lit "3"), []);
   (Change categoryID (lit "1234"), []);
   (Submit, submit_effects);
   (Settle (Rejected sample_error),
    snd (handleSubmit_settle (ui pending_config) (Rejected sample_error)));
   (Submit, submit_effects)].

(** * Properties *)

(** ** Rounding of integers and the shape of [parseInt] results *)

Lemma round_half_even_1 p : round_half_even p 1 = p.
Proof.
  unfold round_half_even. rewrite Z.mod_1_r, Z.div_1_r. reflexivity.
Qed.

Lemma round_half_even_lower p q : 0 < q -> p / q <= round_half_even p q.
Proof.
  intros Hq. unfold round_half_even.
  destruct (2 * (p mod q) ?= q); [destruct (Z.even (p / q))| |]; lia.
Qed.

Lemma Qred_inject_Z n : Qred (inject_Z n) = inject_Z n.
Proof.
  apply Qred_identity. simpl. apply Z.gcd_1_r.
Qed.

Lemma dyadic_scaled n e : e < 0 -> dyadic (n * 2 ^ (- e)) e = inject_Z n.
Proof.
  intros He. unfold dyadic.
  destruct (0 <=? e) eqn:E; [apply Z.leb_le in E; lia|].
  rewrite <- Qred_inject_Z.
  apply Qred_complete. unfold Qeq, inject_Z. simpl.
  rewrite Z2Pos.id by (apply Z.pow_pos_nonneg; lia). lia.
Qed.

Lemma floor_log2_int n : 0 < n -> floor_log2 n 1 = Z.log2 n.
Proof.
  intros Hn. unfold floor_log2, scale2. simpl Z.log2. rewrite Z.sub_0_r.
  pose proof (Z.log2_nonneg n) as H0. pose proof (Z.log2_spec n Hn) as [H1 _].
  destruct (0 <=? Z.log2 n) eqn:E; [|apply Z.leb_gt in E; lia].
  destruct (1 * 2 ^ Z.log2 n <=? n) eqn:E'; [reflexivity|apply Z.leb_gt in E'; lia].
Qed.

(** Integers below [2^53] are binary64 values; from [2^53] on the rounded
    value stays at or above [2^53]. *)
Lemma to_double_int neg n :
  0 < n ->
  (n < 2 ^ 53 -> to_double neg n 1 = of_Z (signed neg n))
  /\ (2 ^ 53 <= n ->
      to_double neg n 1 = Infinity neg
      \/ exists z, 2 ^ 53 <= z /\ to_double neg n 1 = of_Z (signed neg z)).
Proof.
  intros Hn. unfold to_double.
  destruct (n =? 0) eqn:E0; [apply Z.eqb_eq in E0; lia|].
  rewrite floor_log2_int by assumption.
  pose proof (Z.log2_nonneg n) as Hk0.
  pose proof (Z.log2_spec n Hn) as [Hk1 Hk2].
  rewrite Z.max_l by lia.
  remember (Z.log2 n) as k eqn:Hk.
  unfold scale2.
  destruct (0 <=? k - 52) eqn:Ee.
  - apply Z.leb_le in Ee. rewrite Z.mul_1_l.
    remember (k - 52) as e eqn:He'.
    assert (He : 0 < 2 ^ e) by (apply Z.pow_pos_nonneg; lia).
    assert (Hlow : 2 ^ 52 <= n / 2 ^ e).
    { apply Z.div_le_lower_bound; [assumption|].
      rewrite Z.mul_comm, <- Z.pow_add_r by lia.
      replace (52 + e) with k by lia. assumption. }
    pose proof (round_half_even_lower n (2 ^ e) He) as Hm.
    remember (round_half_even n (2 ^ e)) as m eqn:Hm'.
    destruct (m =? 0) eqn:Em; [apply Z.eqb_eq in Em; lia|].
    assert (Hd : dyadic m e = inject_Z (m * 2 ^ e)).
    { unfold dyadic.
      destruct (0 <=? e) eqn:E; [reflexivity|apply Z.leb_gt in E; lia]. }
    rewrite Hd.
    replace (0 <=? e) with true by (symmetry; apply Z.leb_le; lia).
    cbn [andb]. split.
    + intros Hlt.
      assert (k < 53) by (subst k; apply Z.log2_lt_pow2; lia).
      assert (He0 : e = 0) by lia.
      assert (Hmn : m = n).
      { subst m. rewrite He0. change (2 ^ 0) with 1.
        apply round_half_even_1. }
      rewrite Hmn, He0. change (2 ^ 0) with 1. rewrite Z.mul_1_r.
      destruct (2 ^ 1024 <=? n) eqn:Eo; [apply Z.leb_le in Eo; lia|].
      destruct neg; reflexivity.
    + intros Hge.
      destruct (2 ^ 1024 <=? m * 2 ^ e); [left; reflexivity|right].
      exists (m * 2 ^ e). split; [|destruct neg; reflexivity].
      assert (53 <= k) by (subst k; apply Z.log2_le_pow2; lia).
      assert (2 ^ 52 * 2 ^ e <= m * 2 ^ e) by nia.
      assert (2 ^ 52 * 2 ^ 1 <= 2 ^ 52 * 2 ^ e).
      { apply Z.mul_le_mono_nonneg_l; [lia|]. apply Z.pow_le_mono_r; lia. }
      change (2 ^ 53) with (2 ^ 52 * 2 ^ 1). lia.
  - apply Z.leb_gt in Ee. rewrite round_half_even_1.
    assert (Hp : 0 < 2 ^ (- (k - 52))) by (apply Z.pow_pos_nonneg; lia).
    destruct (n * 2 ^ (- (k - 52)) =? 0) eqn:Em; [apply Z.eqb_eq in Em; nia|].
    cbn [andb]. rewrite dyadic_scaled by lia. split.
    + intros _. destruct neg; reflexivity.
    + intros Hge. assert (53 <= k) by (subst k; apply Z.log2_le_pow2; lia).
      lia.
Qed.

(** On the samples [to_double] agrees with the correctly rounded
    conversions of Stdlib's [SpecFloat] at precision 53 and exponent bound
    1024. *)
Lemma to_double_agrees_with_SpecFloat :
  forallb
    (fun n =>
       Number_eqb (of_spec_float (binary_normalize 53 1024 n 0 false))
                  (to_double false n 1)
       && Number_eqb (of_spec_float (binary_normalize 53 1024 (- n) 0 false))
                     (to_double true n 1))
    sample_integers = true
  /\ forallb
       (fun '(p, q) =>
          Number_eqb
            (of_spec_float
               (SFdiv 53 1024 (S754_finite false (Z.to_pos p) 0)
                              (S754_finite false (Z.to_pos q) 0)))
            (to_double false p q))
       sample_ratios = true.
Proof. split; vm_compute; reflexivity. Qed.

Lemma digit_value_nonneg radix c d : digit_value radix c = Some d -> 0 <= d.
Proof.
  unfold digit_value. intros H.
  repeat match type of H with
         | context [if ?b then _ else _] => destruct b
         end; inversion H; lia.
Qed.

Lemma span_digits_nonneg radix s :
  Forall (fun d => 0 <= d) (fst (span_digits radix s)).
Proof.
  induction s as [|c s IH]; simpl; [constructor|].
  destruct (digit_value radix c) as [d|] eqn:E; [|constructor].
  destruct (span_digits radix s) as [ds r]. simpl in *.
  constructor; [exact (digit_value_nonneg _ _ _ E)|exact IH].
Qed.

Lemma digits_fold_nonneg radix ds acc :
  Forall (fun d => 0 <= d) ds -> 0 <= acc ->
  0 <= fold_left (fun acc d => acc * Z.of_N radix + d) ds acc.
Proof.
  intros H. revert acc.
  induction H as [|d ds Hd _ IH]; simpl; intros acc Hacc; [assumption|].
  apply IH. nia.
Qed.

Lemma digits_value_nonneg radix ds :
  Forall (fun d => 0 <= d) ds -> 0 <= digits_value radix ds.
Proof. intros H. apply digits_fold_nonneg; [assumption|lia]. Qed.

Lemma parseInt_math_nonneg str neg n :
  parseInt_math str = Some (neg, n) -> 0 <= n.
Proof.
  unfold parseInt_math.
  destruct (strip_sign (trim_start str)) as [sg s].
  match goal with |- context [let '(_, _) := ?x in _] => destruct x as [radix s'] end.
  pose proof (span_digits_nonneg radix s') as H.
  destruct (fst (span_digits radix s')) as [|d ds]; [discriminate|].
  intros [= _ <-]. apply digits_value_nonneg. assumption.
Qed.

Lemma parseInt_spec str :
  match parseInt_math str with
  | None => parseInt str = NaN
  | Some (neg, n) =>
      0 <= n
      /\ (n = 0 -> parseInt str = signed_zero neg)
      /\ (0 < n < 2 ^ 53 -> parseInt str = of_Z (signed neg n))
      /\ (2 ^ 53 <= n ->
          parseInt str = Infinity neg
          \/ exists z, 2 ^ 53 <= z /\ parseInt str = of_Z (signed neg z))
  end.
Proof.
  unfold parseInt.
  destruct (parseInt_math str) as [[neg n]|] eqn:E; [|reflexivity].
  split; [eapply parseInt_math_nonneg; eassumption|]. split; [|split].
  - intros ->. reflexivity.
  - intros [H0 H53]. apply to_double_int; assumption.
  - intros H53. apply to_double_int; [|assumption].
    assert (0 < 2 ^ 53) by reflexivity. lia.
Qed.

Lemma of_Z_inj a b : of_Z a = of_Z b -> a = b.
Proof. intros [= H]. exact H. Qed.

(** What [parseInt] returns: NaN, an infinity, negative zero or an
    integer. *)
Lemma parseInt_shape str :
  parseInt str = NaN \/ parseInt str = NegZero
  \/ (exists neg, parseInt str = Infinity neg)
  \/ exists z, parseInt str = of_Z z.
Proof.
  pose proof (parseInt_spec str) as H.
  destruct (parseInt_math str) as [[neg n]|]; [|left; assumption].
  destruct H as (Hn & H0 & Hsmall & Hbig).
  destruct (Z.eq_dec n 0) as [->|Hne].
  - rewrite (H0 eq_refl). destruct neg; [right; left; reflexivity|].
    right; right; right. exists 0. reflexivity.
  - destruct (Z_lt_le_dec n (2 ^ 53)) as [Hlt|Hge].
    + rewrite Hsmall by lia. right; right; right. eauto.
    + destruct (Hbig Hge) as [->|(z & _ & ->)]; right; right; eauto.
Qed.

(** An integer result of magnitude below [2^53] is the integer the digits
    denote. *)
Lemma parseInt_exact str z :
  parseInt str = of_Z z -> - 2 ^ 53 < z < 2 ^ 53 ->
  exists neg n, parseInt_math str = Some (neg, n) /\ z = signed neg n.
Proof.
  intros Heq Hz. pose proof (parseInt_spec str) as H.
  destruct (parseInt_math str) as [[neg n]|];
    [|rewrite H in Heq; discriminate].
  destruct H as (Hn & H0 & Hsmall & Hbig).
  exists neg, n. split; [reflexivity|].
  destruct (Z.eq_dec n 0) as [->|Hne].
  - rewrite (H0 eq_refl) in Heq. destruct neg; [discriminate|].
    apply of_Z_inj in Heq. cbn. lia.
  - destruct (Z_lt_le_dec n (2 ^ 53)) as [Hlt|Hge].
    + rewrite Hsmall in Heq by lia. apply of_Z_inj in Heq. congruence.
    + exfalso. destruct (Hbig Hge) as [Hinf|(z' & Hz' & Hof)];
        rewrite Heq in *; [discriminate|].
      apply of_Z_inj in Hof. subst z. destruct neg; cbn in Hz; lia.
Qed.

(** Conversely, digits denoting an integer below [2^53] are read
    exactly. *)
Lemma parseInt_math_exact str neg n :
  parseInt_math str = Some (neg, n) -> 0 < n < 2 ^ 53 ->
  parseInt str = of_Z (signed neg n).
Proof.
  intros Heq Hn. pose proof (parseInt_spec str) as H.
  rewrite Heq in H. apply H. assumption.
Qed.

Lemma lt_of_Z a b : lessThan (of_Z a) (of_Z b) = (a <? b).
Proof. unfold lessThan, of_Z, Qltb. simpl. rewrite !Z.mul_1_r. reflexivity. Qed.

Lemma gt_of_Z a b : greaterThan (of_Z a) (of_Z b) = (b <? a).
Proof. apply lt_of_Z. Qed.

Lemma trim_start_nil s :
  trim_start s = [] <-> Forall (fun c => is_whitespace c = true) s.
Proof.
  induction s as [|c s IH]; simpl.
  - split; [constructor|reflexivity].
  - destruct (is_whitespace c) eqn:E.
    + rewrite IH. split; [constructor; assumption|]. inversion 1; assumption.
    + split; [discriminate|]. inversion 1; congruence.
Qed.

Lemma trim_start_head s c r : trim_start s = c :: r -> is_whitespace c = false.
Proof.
  induction s as [|a s IH]; simpl; [discriminate|].
  destruct (is_whitespace a) eqn:E; [assumption|]. intros [= <- _]. assumption.
Qed.

Lemma trim_nil s :
  trim s = [] <-> Forall (fun c => is_whitespace c = true) s.
Proof.
  unfold trim, trim_end. split.
  - intros H. apply trim_start_nil.
    destruct (trim_start s) as [|c r] eqn:E; [reflexivity|exfalso].
    apply trim_start_head in E.
    destruct (trim_start (rev (c :: r))) as [|a l] eqn:E2.
    + apply trim_start_nil in E2. apply Forall_rev in E2.
      rewrite rev_involutive in E2. inversion E2; congruence.
    + simpl in H. destruct (rev l); discriminate.
  - intros H. apply trim_start_nil in H. rewrite H. reflexivity.
Qed.

Lemma lt_NaN_r x : lessThan x NaN = false.
Proof. destruct x as [|[]| |]; reflexivity. Qed.

Lemma parseInt_nil : parseInt [] = NaN.
Proof. reflexivity. Qed.

Lemma lit_999999_99_finite : isNaN lit_999999_99 = false.
Proof. vm_compute. reflexivity. Qed.

(** ** The field rules *)

Ltac value_nonempty v H :=
  destruct v as [|? ?]; [contradiction H; reflexivity|]; clear H.

(** Below [2^53] the comparison of the two parsed Numbers is the
    comparison of the integers the digits denote. *)
Lemma validate_lowStockCount_rejects_greater_digits value formData n m :
  parseInt_math value = Some (false, n) ->
  parseInt_math (formData inStockCount) = Some (false, m) ->
  m < n < 2 ^ 53 ->
  validate_lowStockCount value formData
    = lit "Low stock alert cannot be higher than current stock".
Proof.
  intros Hv Hs Hlt.
  pose proof (parseInt_math_nonneg _ _ _ Hs) as Hm.
  assert (Hpv : parseInt value = of_Z n)
    by (apply (parseInt_math_exact value false n Hv); lia).
  assert (Hps : parseInt (formData inStockCount) = of_Z m).
  { pose proof (parseInt_spec (formData inStockCount)) as H.
    rewrite Hs in H. destruct H as (_ & H0 & Hsmall & _).
    destruct (Z.eq_dec m 0) as [->|Hne]; [exact (H0 eq_refl)|].
    apply Hsmall. lia. }
  unfold validate_lowStockCount. rewrite Hpv, Hps.
  destruct value as [|c value]; [discriminate|]. cbn [truthy negb].
  rewrite lt_of_Z, gt_of_Z. cbn [isNaN of_Z orb].
  replace (n <? 0) with false by (symmetry; apply Z.ltb_ge; lia).
  replace (m <? n) with true by (symmetry; apply Z.ltb_lt; lia).
  reflexivity.
Qed.

(** C5. With [inStockCount] set to "10", the low-stock rule answers "11"
    with the cross-field message and accepts "10"; in general a value whose
    [parseInt] is strictly greater than that of [inStockCount] is
    rejected, with the cross-field message unless it is negative. *)
Theorem lowStockCount_cross_field_bound (formData : FormData) :
  formData inStockCount = lit "10" ->
  validate_lowStockCount (lit "11") formData
    = lit "Low stock alert cannot be higher than current stock"
  /\ validate_lowStockCount (lit "10") formData = lit ""
  /\ forall (value : jsstring) (formData' : FormData),
       greaterThan (parseInt value) (parseInt (formData' inStockCount))
         = true ->
       validate_lowStockCount value formData' <> lit ""
       /\ (lessThan (parseInt value) (of_Z 0) = false ->
           validate_lowStockCount value formData'
             = lit "Low stock alert cannot be higher than current stock").
Proof.
  intros H10. unfold validate_lowStockCount. rewrite H10.
  split; [vm_compute; reflexivity|]. split; [vm_compute; reflexivity|].
  intros value fd Hgt.
  assert (Hnan : isNaN (parseInt value) = false).
  { destruct (parseInt value); [|reflexivity..].
    unfold greaterThan in Hgt. rewrite lt_NaN_r in Hgt. discriminate. }
  destruct value as [|c value]; [rewrite parseInt_nil in Hnan; discriminate|].
  cbn [truthy negb]. rewrite Hnan, Hgt. cbn [orb].
  destruct (lessThan _ (of_Z 0)); split;
    try discriminate; try reflexivity; intros; discriminate.
Qed.

Lemma lowStockCount_cross_field_bound_witness :
  validate_lowStockCount (lit "11") formData_stock_10
    = lit "Low stock alert cannot be higher than current stock"
  /\ validate_lowStockCount (lit "10") formData_stock_10 = lit ""
  /\ validate_lowStockCount (lit "4") valid_draft_3 <> lit "".
Proof.
  destruct (lowStockCount_cross_field_bound formData_stock_10 eq_refl)
    as (H11 & H10 & Hgt).
  split; [exact H11|]. split; [exact H10|].
  apply (Hgt (lit "4") valid_draft_3). vm_compute. reflexivity.
Defined.

(** C6. The price rule rejects "-1" and "1000000", accepts "0" and
    "999999.99"; a non-empty value is accepted exactly when [parseFloat]
    gives a Number [x] with [0 <= x] and [x <= 999999.99]. *)
Theorem unitPrice_range (formData : FormData) :
  validate_unitPrice (lit "-1") formData
    = lit "Please enter a valid positive price"
  /\ validate_unitPrice (lit "0") formData = lit ""
  /\ validate_unitPrice (lit "1000000") formData = lit "Price is too high"
  /\ validate_unitPrice (lit "999999.99") formData = lit ""
  /\ forall value : jsstring,
       value <> lit "" ->
       (validate_unitPrice value formData = lit "" <->
        lessThanOrEqual (of_Z 0) (parseFloat value) = true
        /\ lessThanOrEqual (parseFloat value) lit_999999_99 = true).
Proof.
  do 4 (split; [vm_compute; reflexivity|]).
  intros value Hne. value_nonempty value Hne.
  unfold validate_unitPrice, lessThanOrEqual, greaterThan.
  cbn [truthy negb].
  rewrite lit_999999_99_finite.
  remember (parseFloat _) as x eqn:Hx. clear Hx.
  remember lit_999999_99 as limit eqn:Hl. clear Hl.
  cbn [of_Z isNaN negb andb].
  destruct (isNaN x), (lessThan x _), (lessThan limit x);
    cbn; split; try discriminate; try tauto; intros [? ?]; discriminate.
Qed.

(** A decimal above the limit that rounds to the same binary64 value as
    [999999.99] is accepted; the next representable price is not. *)
Lemma unitPrice_limit_is_binary64 formData :
  validate_unitPrice (lit "999999.990000000000001") formData = lit ""
  /\ validate_unitPrice (lit "999999.9900000001") formData
       = lit "Price is too high".
Proof. split; vm_compute; reflexivity. Qed.

Lemma unitPrice_range_witness :
  validate_unitPrice (lit "2.50") INITIAL_FORM_STATE = lit "" <->
  lessThanOrEqual (of_Z 0) (parseFloat (lit "2.50")) = true
  /\ lessThanOrEqual (parseFloat (lit "2.50")) lit_999999_99 = true.
Proof.
  destruct (unitPrice_range INITIAL_FORM_STATE) as (_ & _ & _ & _ & H).
  apply (H (lit "2.50")). discriminate.
Defined.

Lemma validate_categoryID_accepts value formData :
  value <> lit "" ->
  (validate_categoryID value formData = lit "" <->
   exists n : Z, parseInt value = of_Z n /\ 1000 <= n <= 9999).
Proof.
  intros Hne. value_nonempty value Hne.
  unfold validate_categoryID. cbn [truthy negb].
  destruct (parseInt_shape (n :: value)) as [H|[H|[[neg H]|[z H]]]];
    rewrite H.
  - split; [intros Hc; vm_compute in Hc; discriminate|].
    intros (k & [=] & _).
  - split; [intros Hc; vm_compute in Hc; discriminate|].
    intros (k & [=] & _).
  - split; [intros Hc; destruct neg; vm_compute in Hc; discriminate|].
    intros (k & [=] & _).
  - rewrite lt_of_Z, gt_of_Z. cbn [isNaN of_Z orb].
    destruct (z <? 1000) eqn:E1; [apply Z.ltb_lt in E1|apply Z.ltb_ge in E1].
    + split; [discriminate|]. intros (k & Hk & ?).
      apply of_Z_inj in Hk. lia.
    + destruct (9999 <? z) eqn:E2;
        [apply Z.ltb_lt in E2|apply Z.ltb_ge in E2]; cbn [orb].
      * split; [discriminate|]. intros (k & Hk & ?).
        apply of_Z_inj in Hk. lia.
      * split; [intros _; exists z; split; [reflexivity|lia]|reflexivity].
Qed.

(** In this range [parseInt] is exact: the accepted values are those
    whose leading digits denote an integer between 1000 and 9999. *)
Lemma validate_categoryID_accepts_digits value formData :
  value <> lit "" ->
  (validate_categoryID value formData = lit "" <->
   exists n : Z, parseInt_math value = Some (false, n) /\ 1000 <= n <= 9999).
Proof.
  intros Hne. rewrite (validate_categoryID_accepts _ _ Hne). split.
  - intros (z & Hz & Hrange).
    destruct (parseInt_exact value z Hz) as (neg & n & Hmath & Hsigned).
    { assert (9999 < 2 ^ 53) by reflexivity. lia. }
    pose proof (parseInt_math_nonneg _ _ _ Hmath) as Hn.
    destruct neg; cbn in Hsigned; [lia|]. subst z. eauto.
  - intros (n & Hmath & Hrange). exists n. split; [|assumption].
    apply (parseInt_math_exact value false n Hmath).
    assert (9999 < 2 ^ 53) by reflexivity. lia.
Qed.

(** C7. The category rule rejects "999" and "10000", accepts "1000" and
    "9999"; a non-empty value is accepted exactly when [parseInt] gives an
    integer between 1000 and 9999. *)
Theorem categoryID_range (formData : FormData) :
  validate_categoryID (lit "999") formData
    = lit "Please enter a valid 4-digit category ID (1000-9999)"
  /\ validate_categoryID (lit "1000") formData = lit ""
  /\ validate_categoryID (lit "9999") formData = lit ""
  /\ validate_categoryID (lit "10000") formData
       = lit "Please enter a valid 4-digit category ID (1000-9999)"
  /\ forall value : jsstring,
       value <> lit "" ->
       (validate_categoryID value formData = lit "" <->
        exists n : Z, parseInt value = of_Z n /\ 1000 <= n <= 9999).
Proof.
  do 4 (split; [vm_compute; reflexivity|]).
  intros value. apply validate_categoryID_accepts.
Qed.

Lemma categoryID_range_witness :
  validate_categoryID (lit "1234") INITIAL_FORM_STATE = lit "" <->
  exists n : Z, parseInt (lit "1234") = of_Z n /\ 1000 <= n <= 9999.
Proof.
  destruct (categoryID_range INITIAL_FORM_STATE) as (_ & _ & _ & _ & H).
  apply (H (lit "1234")). discriminate.
Defined.

(** C9. A name that is not blank and longer than 100 code units gets the
    message "Product name cannot exceed 100 characters", so an accepted
    name has at most 100; a name made of white space only gets the
    required-field message. *)
Theorem pName_length_cap (value : jsstring) (formData : FormData) :
  (trim value <> lit "" -> 100 < JSString.length value ->
   validate_pName value formData
     = lit "Product name cannot exceed 100 characters")
  /\ (validate_pName value formData = lit "" ->
      trim value <> lit "" /\ JSString.length value <= 100)
  /\ (Forall (fun c => is_whitespace c = true) value ->
      validate_pName value formData = lit "Product name is required").
Proof.
  unfold validate_pName. split; [|split].
  - intros Ht Hlen. destruct (trim value); [contradiction Ht; reflexivity|].
    cbn [truthy negb]. apply Z.ltb_lt in Hlen. rewrite Hlen. reflexivity.
  - destruct (trim value); cbn [truthy negb]; [discriminate|].
    destruct (100 <? JSString.length value) eqn:E; [discriminate|].
    apply Z.ltb_ge in E. intros _. split; [discriminate|assumption].
  - intros Hws. apply trim_nil in Hws. rewrite Hws. reflexivity.
Qed.

Lemma pName_length_cap_witness :
  validate_pName long_name INITIAL_FORM_STATE
    = lit "Product name cannot exceed 100 characters"
  /\ validate_pName (lit "   ") INITIAL_FORM_STATE
       = lit "Product name is required".
Proof.
  split.
  - apply (pName_length_cap long_name INITIAL_FORM_STATE);
      [vm_compute; discriminate|vm_compute; reflexivity].
  - apply (pName_length_cap (lit "   ") INITIAL_FORM_STATE).
    repeat constructor.
Defined.

(** ** The submit handler *)

Lemma all_valid_iff formData :
  all_valid formData <->
  validate_pName (formData pName) formData = lit ""
  /\ validate_unitPrice (formData unitPrice) formData = lit ""
  /\ validate_inStockCount (formData inStockCount) formData = lit ""
  /\ validate_lowStockCount (formData lowStockCount) formData = lit ""
  /\ validate_categoryID (formData categoryID) formData = lit "".
Proof.
  unfold all_valid, INPUT_FIELDS. split.
  - intros H. repeat split.
    + exact (H _ (or_introl eq_refl)).
    + exact (H _ (or_intror (or_introl eq_refl))).
    + exact (H _ (or_intror (or_intror (or_introl eq_refl)))).
    + exact (H _ (or_intror (or_intror (or_intror (or_introl eq_refl))))).
    + exact (H _ (or_intror (or_intror (or_intror (or_intror
                   (or_introl eq_refl)))))).
  - intros (H1 & H2 & H3 & H4 & H5) field
      [<-|[<-|[<-|[<-|[<-|[]]]]]]; assumption.
Qed.

Lemma truthy_false s : truthy s = false <-> s = lit "".
Proof. destruct s; split; (reflexivity || discriminate). Qed.

Lemma validateAll_fold formData fields
    (newErrors : gmap FieldId jsstring) (isValid : bool) :
  let r := fold_left (validate_field formData) fields (newErrors, isValid) in
  snd r = isValid && forallb (accepts formData) fields
  /\ (forallb (accepts formData) fields = true -> fst r = newErrors).
Proof.
  revert newErrors isValid.
  induction fields as [|field fields IH]; intros newErrors isValid; cbn.
  - split; [rewrite andb_true_r|]; reflexivity.
  - unfold accepts at 1 3.
    destruct (truthy (InputField.validate field _ _)); cbn [negb andb].
    + destruct (IH (<[InputField.id field :=
                       InputField.validate field
                         (formData (InputField.id field)) formData]>
                      newErrors) false) as [-> _].
      rewrite andb_false_r. split; [reflexivity|discriminate].
    + apply IH.
Qed.

Lemma forallb_accepts formData :
  forallb (accepts formData) INPUT_FIELDS = true <-> all_valid formData.
Proof.
  rewrite forallb_forall. unfold all_valid, accepts.
  split; intros H field Hin; specialize (H field Hin).
  - apply negb_true_iff in H. apply truthy_false. exact H.
  - apply negb_true_iff. apply truthy_false. exact H.
Qed.

Lemma validateAll_isValid formData :
  snd (validateAll formData) = true <-> all_valid formData.
Proof.
  unfold validateAll.
  destruct (validateAll_fold formData INPUT_FIELDS ∅ true) as [-> _].
  cbn [andb]. apply forallb_accepts.
Qed.

Lemma validateAll_valid formData :
  all_valid formData -> validateAll formData = (∅, true).
Proof.
  intros H. pose proof (proj2 (validateAll_isValid formData) H) as Hsnd.
  apply forallb_accepts in H.
  unfold validateAll in *.
  destruct (validateAll_fold formData INPUT_FIELDS ∅ true) as [_ Hfst].
  specialize (Hfst H).
  destruct (fold_left _ INPUT_FIELDS (∅, true)) as [e v].
  cbn in Hsnd, Hfst. congruence.
Qed.

Lemma invalid_field_not_all_valid formData :
  (exists field, In field INPUT_FIELDS /\
     InputField.validate field (formData (InputField.id field)) formData
       <> lit "") ->
  snd (validateAll formData) = false.
Proof.
  intros (field & Hin & Hne).
  destruct (snd (validateAll formData)) eqn:E; [|reflexivity].
  apply validateAll_isValid in E. contradiction Hne. apply E. assumption.
Qed.

Lemma handleSubmit_begin_invalid st :
  snd (validateAll (formData st)) = false ->
  handleSubmit_begin st =
    ({| formData := formData st; errors := fst (validateAll (formData st));
        isSubmitting := isSubmitting st |},
     [preventDefault; validation_toast], None).
Proof.
  unfold handleSubmit_begin. destruct (validateAll (formData st)) as [e v].
  cbn [fst snd]. intros ->. reflexivity.
Qed.

Lemma handleSubmit_begin_valid st :
  all_valid (formData st) ->
  handleSubmit_begin st =
    ({| formData := formData st; errors := ∅; isSubmitting := true |},
     [preventDefault; loading_toast;
      axios_post endpoint (processedData (formData st))],
     Some (processedData (formData st))).
Proof.
  intros H. unfold handleSubmit_begin. rewrite (validateAll_valid _ H).
  reflexivity.
Qed.

(** C1. [handleSubmit] sends the POST only when every rule returns the
    empty string for its entry of the draft; when some rule returns a
    message the handler stops before the request, and all it shows is the
    one notification "Please fix the form errors before submitting". *)
Theorem handleSubmit_posts_only_valid (st : State) (o : Outcome) :
  ((exists url d, In (axios_post url d) (snd (handleSubmit st o))) ->
   all_valid (formData st))
  /\ ((exists field, In field INPUT_FIELDS /\
         InputField.validate field (formData st (InputField.id field))
           (formData st) <> lit "") ->
      snd (handleSubmit_begin st) = None
      /\ snd (handleSubmit st o)
           = [preventDefault;
              toast_error (lit "Please fix the form errors before submitting")
                None]
      /\ posts (snd (handleSubmit st o)) = []).
Proof.
  split.
  - intros (url & d & Hin).
    apply validateAll_isValid.
    destruct (snd (validateAll (formData st))) eqn:E; [reflexivity|exfalso].
    unfold handleSubmit in Hin.
    rewrite (handleSubmit_begin_invalid _ E) in Hin. cbn in Hin.
    destruct Hin as [Hin|[Hin|[]]]; discriminate.
  - intros Hbad. apply invalid_field_not_all_valid in Hbad.
    unfold handleSubmit. rewrite (handleSubmit_begin_invalid _ Hbad).
    repeat split.
Qed.

Lemma handleSubmit_posts_only_valid_witness :
  snd (handleSubmit initial_state Fulfilled)
    = [preventDefault;
       toast_error (lit "Please fix the form errors before submitting") None]
  /\ posts (snd (handleSubmit initial_state Fulfilled)) = [].
Proof.
  destruct (handleSubmit_posts_only_valid initial_state Fulfilled) as [_ H].
  destruct H as (_ & H1 & H2).
  - exists (InputField.Build pName (lit "Product Name") (lit "text")
              None None None None validate_pName).
    split; [left; reflexivity|vm_compute; discriminate].
  - split; assumption.
Defined.

(** *** Numbers sent for a valid draft *)

Lemma lt_Infinity_r x :
  isFinite x = true -> lessThan x (Infinity false) = true.
Proof. destruct x as [|[]| |]; (discriminate || reflexivity). Qed.

Lemma count_is_integer str (low high : Number) :
  isNaN (parseInt str) = false ->
  lessThan (parseInt str) low = false ->
  greaterThan (parseInt str) high = false ->
  isFinite low = true -> isFinite high = true ->
  isInteger (parseInt str) = true /\ isFinite (parseInt str) = true.
Proof.
  intros Hnan Hlt Hgt Hlow Hhigh.
  destruct (parseInt_shape str) as [H|[H|[[neg H]|[z H]]]];
    rewrite H in *; try (split; reflexivity); try discriminate.
  exfalso. destruct neg.
  - destruct low as [|[]| |]; discriminate.
  - unfold greaterThan in Hgt. rewrite lt_Infinity_r in Hgt by assumption.
    discriminate.
Qed.

Lemma valid_unitPrice_finite value formData :
  validate_unitPrice value formData = lit "" ->
  isFinite (parseFloat value) = true.
Proof.
  unfold validate_unitPrice.
  destruct value as [|c value]; [discriminate|]. cbn [truthy negb].
  remember (parseFloat (c :: value)) as x eqn:Hx. clear Hx.
  destruct x as [|[]| |]; try reflexivity; intros H; vm_compute in H;
    discriminate.
Qed.

Lemma valid_inStockCount_integer value formData :
  validate_inStockCount value formData = lit "" ->
  isInteger (parseInt value) = true /\ isFinite (parseInt value) = true.
Proof.
  unfold validate_inStockCount.
  destruct value as [|c value]; [discriminate|]. cbn [truthy negb].
  destruct (isNaN _) eqn:E1; [discriminate|].
  destruct (lessThan _ (of_Z 0)) eqn:E2; [discriminate|].
  destruct (greaterThan _ (of_Z 2147483647)) eqn:E3; [discriminate|].
  intros _. eapply count_is_integer; eauto.
Qed.

Lemma valid_lowStockCount_integer value formData :
  validate_lowStockCount value formData = lit "" ->
  isFinite (parseInt (formData inStockCount)) = true ->
  isInteger (parseInt value) = true /\ isFinite (parseInt value) = true.
Proof.
  unfold validate_lowStockCount.
  destruct value as [|c value]; [discriminate|]. cbn [truthy negb].
  destruct (isNaN _) eqn:E1; [discriminate|].
  destruct (lessThan _ (of_Z 0)) eqn:E2; [discriminate|].
  destruct (greaterThan _ (parseInt _)) eqn:E3; [discriminate|].
  intros _ Hfin. eapply count_is_integer; eauto.
Qed.

Lemma valid_categoryID_integer value formData :
  validate_categoryID value formData = lit "" ->
  isInteger (parseInt value) = true /\ isFinite (parseInt value) = true.
Proof.
  unfold validate_categoryID.
  destruct value as [|c value]; [discriminate|]. cbn [truthy negb].
  destruct (isNaN _) eqn:E1; [discriminate|].
  destruct (lessThan _ (of_Z 1000)) eqn:E2; [discriminate|].
  destruct (greaterThan _ (of_Z 9999)) eqn:E3; [discriminate|].
  intros _. eapply count_is_integer; eauto.
Qed.

(** C2. Submitting a draft that every rule accepts sends exactly one POST,
    to the product endpoint, whose body keeps [pName] as typed and carries
    [parseFloat] of the price (a finite Number) and [parseInt] of the two
    counts and of the category (integers); when the request succeeds the
    draft becomes [INITIAL_FORM_STATE] and [onClose] is called. *)
Theorem handleSubmit_valid_success (st : State) :
  all_valid (formData st) ->
  let body :=
    {| ProcessedData.pName := formData st pName;
       ProcessedData.unitPrice := parseFloat (formData st unitPrice);
       ProcessedData.inStockCount := parseInt (formData st inStockCount);
       ProcessedData.lowStockCount := parseInt (formData st lowStockCount);
       ProcessedData.categoryID := parseInt (formData st categoryID) |} in
  (forall o, posts (snd (handleSubmit st o)) = [(endpoint, body)])
  /\ isFinite (ProcessedData.unitPrice body) = true
  /\ isInteger (ProcessedData.inStockCount body) = true
  /\ isInteger (ProcessedData.lowStockCount body) = true
  /\ isInteger (ProcessedData.categoryID body) = true
  /\ snd (handleSubmit st Fulfilled)
       = [preventDefault;
          toast_loading (lit "Adding product...") (addProduct_toast None);
          axios_post endpoint body;
          toast_success (lit "Successfully added the product!")
            (addProduct_toast (Some 3000));
          onClose]
  /\ formData (fst (handleSubmit st Fulfilled)) = INITIAL_FORM_STATE.
Proof.
  intros Hvalid body.
  pose proof (proj1 (all_valid_iff _) Hvalid) as (_ & Hp & Hs & Hl & Hc).
  split; [|split; [|split; [|split; [|split; [|split]]]]].
  - intros o. unfold handleSubmit.
    rewrite (handleSubmit_begin_valid _ Hvalid). destruct o; reflexivity.
  - eapply valid_unitPrice_finite; eassumption.
  - eapply valid_inStockCount_integer; eassumption.
  - eapply valid_lowStockCount_integer; [eassumption|].
    eapply valid_inStockCount_integer; eassumption.
  - eapply valid_categoryID_integer; eassumption.
  - unfold handleSubmit. rewrite (handleSubmit_begin_valid _ Hvalid).
    reflexivity.
  - unfold handleSubmit. rewrite (handleSubmit_begin_valid _ Hvalid).
    reflexivity.
Qed.

Lemma valid_draft_all_valid : all_valid valid_draft.
Proof. apply all_valid_iff. repeat split; vm_compute; reflexivity. Qed.

Lemma handleSubmit_valid_success_witness :
  posts (snd (handleSubmit valid_state Fulfilled))
    = [(endpoint,
        {| ProcessedData.pName := lit "Green tea";
           ProcessedData.unitPrice := parseFloat (lit "2.50");
           ProcessedData.inStockCount := parseInt (lit "10");
           ProcessedData.lowStockCount := parseInt (lit "3");
           ProcessedData.categoryID := parseInt (lit "1234") |})]
  /\ formData (fst (handleSubmit valid_state Fulfilled)) = INITIAL_FORM_STATE.
Proof.
  destruct (handleSubmit_valid_success valid_state valid_draft_all_valid)
    as (Hpost & _ & _ & _ & _ & _ & Hreset).
  split; [exact (Hpost Fulfilled)|exact Hreset].
Defined.

(** *** A request that fails *)

(** C3, as stated, fails: the body [{message: ""}] has the field, yet the
    notification shows the fallback text, which is not the field's
    value. *)
Lemma handleSubmit_failure_empty_message :
  all_valid (formData valid_state)
  /\ server_message (error_with_message (Some (lit ""))) = Some (lit "")
  /\ snd (handleSubmit valid_state
            (Rejected (error_with_message (Some (lit "")))))
       = [preventDefault;
          toast_loading (lit "Adding product...") (addProduct_toast None);
          axios_post endpoint (processedData valid_draft);
          toast_error (lit "Failed to add product")
            (addProduct_toast (Some 3000))]
  /\ lit "Failed to add product" <> lit "".
Proof.
  split; [exact valid_draft_all_valid|].
  split; [reflexivity|]. split; [|discriminate].
  unfold handleSubmit.
  rewrite (handleSubmit_begin_valid valid_state valid_draft_all_valid). reflexivity.
Qed.

(** C3, amended. When the request of a valid draft is rejected, the error
    notification shows the [message] field of the response body when that
    field is present and not the empty string, and "Failed to add product"
    when it is absent or empty; the draft is as it was and the submitting
    flag is down. *)
Theorem handleSubmit_failure (st : State) (error : AxiosError) :
  all_valid (formData st) ->
  let result := handleSubmit st (Rejected error) in
  (exists text,
     snd result
       = [preventDefault;
          toast_loading (lit "Adding product...") (addProduct_toast None);
          axios_post endpoint (processedData (formData st));
          toast_error text (addProduct_toast (Some 3000))]
     /\ (forall m, server_message error = Some m -> m <> lit "" -> text = m)
     /\ (server_message error = None \/ server_message error = Some (lit "")
         -> text = lit "Failed to add product"))
  /\ formData (fst result) = formData st
  /\ isSubmitting (fst result) = false.
Proof.
  intros Hvalid result. subst result. unfold handleSubmit.
  rewrite (handleSubmit_begin_valid _ Hvalid). cbn.
  split; [|split; reflexivity].
  exists (errorMessage error). split; [reflexivity|].
  unfold errorMessage. split.
  - intros m -> Hm. destruct m; [contradiction Hm|]; reflexivity.
  - intros [->| ->]; reflexivity.
Qed.

Lemma handleSubmit_failure_witness :
  snd (handleSubmit valid_state
         (Rejected (error_with_message (Some (lit "Category not found")))))
    = [preventDefault;
       toast_loading (lit "Adding product...") (addProduct_toast None);
       axios_post endpoint (processedData valid_draft);
       toast_error (lit "Category not found") (addProduct_toast (Some 3000))]
  /\ formData (fst (handleSubmit valid_state
         (Rejected (error_with_message (Some (lit "Category not found"))))))
     = valid_draft.
Proof.
  destruct (handleSubmit_failure valid_state
              (error_with_message (Some (lit "Category not found")))
              valid_draft_all_valid)
    as ((text & Heffs & Hmsg & _) & Hdraft & _).
  split; [|exact Hdraft].
  rewrite Heffs.
  rewrite (Hmsg (lit "Category not found") eq_refl); [reflexivity|].
  discriminate.
Defined.

(** *** The submitting flag *)

Lemma handleChange_defined st name value :
  exists field,
    In field INPUT_FIELDS /\ InputField.id field = name
    /\ handleChange st name value
       = Some {| formData := <[name := value]> (formData st);
                 errors := <[name := InputField.validate field value
                                       (formData st)]> (errors st);
                 isSubmitting := isSubmitting st |}.
Proof.
  unfold handleChange, INPUT_FIELDS.
  destruct name; cbn; eexists; (split; [|split; [|reflexivity]]);
    cbn; tauto.
Qed.

(** C4. In one step of the controller the submitting flag goes up only on
    a submit whose draft every rule accepts (and such a submit does raise
    it); a step that settles the request leaves the flag down, whether the
    request was fulfilled or rejected: the part of [handleSubmit] after the
    [await] always ends with the flag down. *)
Theorem submitting_flag_transitions
    (c : Config) (i : Input) (effs : list Effect) (c' : Config) :
  step c i effs c' ->
  (isSubmitting (ui c) = false -> isSubmitting (ui c') = true ->
   i = Submit /\ all_valid (formData (ui c)))
  /\ (i = Submit -> all_valid (formData (ui c)) ->
      isSubmitting (ui c') = true)
  /\ (forall o, i = Settle o -> isSubmitting (ui c') = false)
  /\ (forall st o, isSubmitting (fst (handleSubmit_settle st o)) = false).
Proof.
  intros Hstep.
  assert (Hsettled :
    forall st o, isSubmitting (fst (handleSubmit_settle st o)) = false)
    by (intros st []; reflexivity).
  cut ((isSubmitting (ui c) = false -> isSubmitting (ui c') = true ->
        i = Submit /\ all_valid (formData (ui c)))
       /\ (i = Submit -> all_valid (formData (ui c)) ->
           isSubmitting (ui c') = true)
       /\ (forall o, i = Settle o -> isSubmitting (ui c') = false));
    [tauto|].
  clear Hsettled. inversion Hstep as
    [c0 name value st' Hidle Hch
    |c0 st' effs0 req Hidle Hbegin
    |c0 o data st' effs0 Hpend Hsettle]; subst; cbn [ui].
  - destruct (handleChange_defined (ui c) name value) as (f & _ & _ & Heq).
    rewrite Heq in Hch. injection Hch as <-. cbn [isSubmitting].
    split; [congruence|]. split; [discriminate|discriminate].
  - split; [|split; [|discriminate]].
    + intros _ Hup. split; [reflexivity|].
      apply validateAll_isValid.
      destruct (snd (validateAll (formData (ui c)))) eqn:E; [reflexivity|].
      rewrite (handleSubmit_begin_invalid _ E) in Hbegin.
      injection Hbegin as <- _ _. cbn in Hup. congruence.
    + intros _ Hvalid. rewrite (handleSubmit_begin_valid _ Hvalid) in Hbegin.
      injection Hbegin as <- _ _. reflexivity.
  - split; [|split; [discriminate|]].
    + intros _ Hup. unfold handleSubmit_settle in Hsettle.
      destruct o; injection Hsettle as <- _; discriminate.
    + intros o' _. unfold handleSubmit_settle in Hsettle.
      destruct o; injection Hsettle as <- _; reflexivity.
Qed.

(** The steps of the sample session. *)
Lemma handleChange_type_into st name value :
  handleChange st name value = Some (type_into st name value).
Proof.
  unfold type_into.
  destruct (handleChange_defined st name value) as (f & _ & _ & ->).
  reflexivity.
Qed.

Lemma type_into_flag st name value :
  isSubmitting (type_into st name value) = isSubmitting st.
Proof.
  unfold type_into.
  destruct (handleChange_defined st name value) as (f & _ & _ & ->).
  reflexivity.
Qed.

Lemma type_config_step c name value :
  isSubmitting (ui c) = false ->
  step c (Change name value) [] (type_config c name value).
Proof.
  intros Hidle.
  apply (step_change c name value (type_into (ui c) name value) Hidle).
  apply handleChange_type_into.
Qed.

Lemma typed_config_idle : isSubmitting (ui typed_config) = false.
Proof.
  unfold typed_config, typed_4, typed_3, typed_2, typed_1, type_config.
  cbn [ui]. rewrite !type_into_flag. reflexivity.
Qed.

Lemma typed_config_valid : all_valid (formData (ui typed_config)).
Proof. apply all_valid_iff. repeat split; vm_compute; reflexivity. Qed.

Lemma typed_config_submit :
  step typed_config Submit submit_effects pending_config.
Proof.
  apply (step_submit typed_config (ui pending_config) submit_effects
           (Some typed_body) typed_config_idle).
  exact (handleSubmit_begin_valid (ui typed_config) typed_config_valid).
Qed.

Lemma pending_config_settle o :
  step pending_config (Settle o)
    (snd (handleSubmit_settle (ui pending_config) o)) (settled_config o).
Proof.
  apply (step_settle pending_config o typed_body
           (fst (handleSubmit_settle (ui pending_config) o))
           (snd (handleSubmit_settle (ui pending_config) o)) eq_refl).
  apply surjective_pairing.
Qed.

Lemma settled_config_submit :
  step (settled_config (Rejected sample_error)) Submit submit_effects
    pending_config.
Proof.
  apply (step_submit (settled_config (Rejected sample_error))
           (ui pending_config) submit_effects (Some typed_body) eq_refl).
  exact (handleSubmit_begin_valid
           (ui (settled_config (Rejected sample_error)))
           typed_config_valid).
Qed.

Lemma submitting_flag_transitions_witness :
  (isSubmitting (ui typed_config) = false
   /\ isSubmitting (ui pending_config) = true)
  /\ (isSubmitting (ui pending_config) = true
      /\ isSubmitting (ui (settled_config Fulfilled)) = false)
  /\ (isSubmitting (ui pending_config) = true
      /\ isSubmitting (ui (settled_config (Rejected sample_error))) = false).
Proof.
  pose proof (submitting_flag_transitions typed_config Submit submit_effects
                pending_config typed_config_submit) as (_ & Hup & _ & _).
  pose proof (submitting_flag_transitions pending_config (Settle Fulfilled)
                _ _ (pending_config_settle Fulfilled))
    as (_ & _ & Hfulfilled & _).
  pose proof (submitting_flag_transitions pending_config
                (Settle (Rejected sample_error))
                _ _ (pending_config_settle (Rejected sample_error)))
    as (_ & _ & Hrejected & _).
  split; [split; [exact typed_config_idle
                 |exact (Hup eq_refl typed_config_valid)]|].
  split; (split; [exact (Hup eq_refl typed_config_valid)|]).
  - exact (Hfulfilled Fulfilled eq_refl).
  - exact (Hrejected (Rejected sample_error) eq_refl).
Defined.

(** While a request is pending, and only then, the flag is up. *)
Lemma reachable_flag_pending c :
  reachable c -> isSubmitting (ui c) = true <-> pending c <> None.
Proof.
  induction 1 as [|c i effs c' Hreach IH Hstep].
  - cbn. split; [discriminate|congruence].
  - inversion Hstep as
      [c0 name value st' Hidle Hch
      |c0 st' effs0 req Hidle Hbegin
      |c0 o data st' effs0 Hpend Hsettle]; subst; cbn [ui pending].
    + destruct (handleChange_defined (ui c) name value) as (f & _ & _ & Heq).
      rewrite Heq in Hch. injection Hch as <-. cbn [isSubmitting].
      exact IH.
    + destruct (snd (validateAll (formData (ui c)))) eqn:E.
      * apply validateAll_isValid in E.
        rewrite (handleSubmit_begin_valid _ E) in Hbegin.
        injection Hbegin as <- _ <-. cbn. split; [discriminate|reflexivity].
      * rewrite (handleSubmit_begin_invalid _ E) in Hbegin.
        injection Hbegin as <- _ <-. cbn. rewrite Hidle.
        split; [discriminate|congruence].
    + unfold handleSubmit_settle in Hsettle.
      destruct o; injection Hsettle as <- _; cbn;
        (split; [discriminate|congruence]).
Qed.

(** ** The change handler *)

(** No rule reads the draft's entry of its own field: only the low-stock
    rule looks at the draft, and it reads [inStockCount]. *)
Lemma validate_own_entry field value value' formData :
  In field INPUT_FIELDS ->
  InputField.validate field value
    (<[InputField.id field := value']> formData)
  = InputField.validate field value formData.
Proof.
  unfold INPUT_FIELDS.
  intros [<-|[<-|[<-|[<-|[<-|[]]]]]]; reflexivity.
Qed.

(** C8. A change of field [name] to [value] sets that entry of the draft
    and that entry of the error map and nothing else; the new error is the
    field's rule applied to [value] and the draft with the change made. *)
Theorem handleChange_frame (st : State) (name : FieldId) (value : jsstring) :
  exists st',
    handleChange st name value = Some st'
    /\ formData st' name = value
    /\ (forall other, other <> name -> formData st' other = formData st other)
    /\ (forall field, In field INPUT_FIELDS -> InputField.id field = name ->
        errors st' !! name
          = Some (InputField.validate field value (formData st')))
    /\ (forall other, other <> name -> errors st' !! other = errors st !! other)
    /\ isSubmitting st' = isSubmitting st.
Proof.
  destruct (handleChange_defined st name value) as (f & Hin & Hid & Heq).
  eexists. split; [exact Heq|]. cbn [formData errors isSubmitting].
  split; [apply fn_lookup_insert|].
  split; [intros other Hne; apply fn_lookup_insert_ne; congruence|].
  split; [|split; [|reflexivity]].
  - intros field Hfield Hname. rewrite lookup_insert_eq. f_equal.
    rewrite <- Hname. rewrite (validate_own_entry _ _ _ _ Hfield).
    revert Hin Hfield Hid Hname. unfold INPUT_FIELDS.
    intros [<-|[<-|[<-|[<-|[<-|[]]]]]] [<-|[<-|[<-|[<-|[<-|[]]]]]];
      cbn [InputField.id]; intros <-; (reflexivity || discriminate).
  - intros other Hne. apply lookup_insert_ne. congruence.
Qed.

Lemma handleChange_frame_witness :
  exists st',
    handleChange valid_state lowStockCount (lit "11") = Some st'
    /\ formData st' lowStockCount = lit "11"
    /\ formData st' inStockCount = lit "10"
    /\ errors st' !! lowStockCount
       = Some (lit "Low stock alert cannot be higher than current stock")
    /\ errors st' !! inStockCount = None.
Proof.
  destruct (handleChange_frame valid_state lowStockCount (lit "11"))
    as (st' & Heq & Hval & Hframe & Herr & Herrs & _).
  exists st'. split; [exact Heq|]. split; [exact Hval|].
  split; [rewrite Hframe by discriminate; reflexivity|].
  split.
  - rewrite (Herr (InputField.Build lowStockCount
                     (lit "Low Stock Alert Threshold") (lit "number")
                     (Some (lit "0")) None None None validate_lowStockCount));
      [|do 3 right; left; reflexivity|reflexivity].
    cbn [InputField.validate]. unfold validate_lowStockCount.
    rewrite Hframe by discriminate. vm_compute. reflexivity.
  - rewrite Herrs by discriminate. reflexivity.
Defined.

(** ** The cross-field bound when the stock count does not parse *)

(** C10. When [parseInt] of the draft's [inStockCount] is NaN, the
    low-stock rule accepts every non-empty value whose [parseInt] is a
    Number not below zero; the stock rule itself rejects the draft's
    [inStockCount], and a submit of that draft sends no request. *)
Theorem lowStockCount_unparsed_stock (draft : FormData) :
  parseInt (draft inStockCount) = NaN ->
  (forall value, value <> lit "" ->
     lessThanOrEqual (of_Z 0) (parseInt value) = true ->
     validate_lowStockCount value draft = lit "")
  /\ validate_inStockCount (draft inStockCount) draft <> lit ""
  /\ (forall st o, formData st = draft ->
        snd (handleSubmit_begin st) = None
        /\ posts (snd (handleSubmit st o)) = []).
Proof.
  intros Hnan. split; [|split].
  - intros value Hne Hle. value_nonempty value Hne.
    unfold validate_lowStockCount. cbn [truthy negb].
    unfold lessThanOrEqual in Hle. cbn [of_Z isNaN negb andb] in Hle.
    apply andb_prop in Hle as [H1 H2].
    apply negb_true_iff in H1, H2. rewrite H1, H2, Hnan.
    reflexivity.
  - unfold validate_inStockCount. rewrite Hnan.
    destruct (draft inStockCount); discriminate.
  - intros st o <-.
    assert (Hbad : snd (validateAll (formData st)) = false).
    { apply invalid_field_not_all_valid.
      exists (InputField.Build inStockCount (lit "Current Stock Count")
                (lit "number") (Some (lit "0")) None None None
                validate_inStockCount).
      split; [do 2 right; left; reflexivity|].
      cbn [InputField.validate InputField.id].
      unfold validate_inStockCount. rewrite Hnan.
      destruct (formData st inStockCount); discriminate. }
    unfold handleSubmit. rewrite (handleSubmit_begin_invalid _ Hbad).
    split; reflexivity.
Qed.

Lemma lowStockCount_unparsed_stock_witness :
  validate_lowStockCount (lit "7") draft_without_stock = lit ""
  /\ validate_inStockCount (lit "") draft_without_stock <> lit "".
Proof.
  destruct (lowStockCount_unparsed_stock draft_without_stock eq_refl)
    as (Hlow & Hstock & _).
  split; [|exact Hstock].
  apply Hlow; [discriminate|vm_compute; reflexivity].
Defined.

(** * Further properties *)

(** ** The error map after a submit *)

Lemma validate_field_other formData acc f key :
  InputField.id f <> key ->
  fst (validate_field formData acc f) !! key = fst acc !! key.
Proof.
  intros Hne. destruct acc as [newErrors isValid]. unfold validate_field.
  destruct (truthy _); [apply lookup_insert_ne; exact Hne|reflexivity].
Qed.

Lemma validate_field_fold_other formData fields acc (key : FieldId) :
  (forall field, In field fields -> InputField.id field <> key) ->
  fst (fold_left (validate_field formData) fields acc) !! key = fst acc !! key.
Proof.
  revert acc.
  induction fields as [|f fields IH]; intros acc Hother; [reflexivity|].
  cbn [fold_left].
  rewrite IH by (intros; apply Hother; right; assumption).
  apply validate_field_other. apply Hother. left. reflexivity.
Qed.

Lemma validate_field_fold_lookup formData fields acc field :
  List.NoDup (map InputField.id fields) -> In field fields ->
  let error :=
    InputField.validate field (formData (InputField.id field)) formData in
  fst (fold_left (validate_field formData) fields acc) !! InputField.id field
  = if truthy error then Some error else fst acc !! InputField.id field.
Proof.
  intros Hnodup Hin error. subst error. revert acc.
  induction fields as [|f fields IH]; intros acc; [destruct Hin|].
  cbn [map] in Hnodup. apply List.NoDup_cons_iff in Hnodup as [Hfresh Hnodup].
  cbn [fold_left]. destruct Hin as [->|Hin].
  - rewrite validate_field_fold_other.
    + destruct acc as [newErrors isValid]. unfold validate_field.
      destruct (truthy _); [apply lookup_insert_eq|reflexivity].
    + intros g Hg Heq. apply Hfresh. rewrite <- Heq. apply in_map. exact Hg.
  - rewrite (IH Hnodup Hin).
    destruct (truthy (InputField.validate field _ _)); [reflexivity|].
    apply validate_field_other. intros Heq. apply Hfresh. rewrite Heq.
    apply in_map. exact Hin.
Qed.

Lemma INPUT_FIELDS_NoDup : List.NoDup (map InputField.id INPUT_FIELDS).
Proof.
  cbn. repeat constructor; cbn; intuition discriminate.
Qed.

Lemma INPUT_FIELDS_complete key :
  exists field, In field INPUT_FIELDS /\ InputField.id field = key.
Proof.
  unfold INPUT_FIELDS.
  destruct key; eexists;
    first [ split; [left; reflexivity|reflexivity]
          | split; [do 1 right; left; reflexivity|reflexivity]
          | split; [do 2 right; left; reflexivity|reflexivity]
          | split; [do 3 right; left; reflexivity|reflexivity]
          | split; [do 4 right; left; reflexivity|reflexivity] ].
Qed.

Lemma handleSubmit_begin_errors st :
  errors (fst (fst (handleSubmit_begin st))) = fst (validateAll (formData st))
  /\ formData (fst (fst (handleSubmit_begin st))) = formData st.
Proof.
  unfold handleSubmit_begin.
  destruct (validateAll (formData st)) as [e []]; split; reflexivity.
Qed.

(** X4. After the validation pass of a submit the error map holds, for
    each field, exactly the non-empty message of its rule on the draft:
    fields whose rule accepts have no entry, whatever was there before. *)
Theorem errors_after_submit (st : State) (field : InputField.t) :
  In field INPUT_FIELDS ->
  let error :=
    InputField.validate field (formData st (InputField.id field))
      (formData st) in
  forall msg,
    errors (fst (fst (handleSubmit_begin st))) !! InputField.id field
      = Some msg
    <-> msg = error /\ msg <> lit "".
Proof.
  intros Hin error msg.
  destruct (handleSubmit_begin_errors st) as [-> _]. unfold validateAll.
  rewrite (validate_field_fold_lookup _ _ _ _ INPUT_FIELDS_NoDup Hin).
  cbn [fst].
  fold error. rewrite lookup_empty. destruct error as [|c error]; cbn.
  - split; [discriminate|]. intros [-> H]. contradiction H. reflexivity.
  - split; [intros [= <-]; split; [reflexivity|discriminate]|].
    intros [-> _]. reflexivity.
Qed.

(** ** Required fields *)

Lemma rules_require_value field formData :
  In field INPUT_FIELDS ->
  InputField.validate field (lit "") formData <> lit "".
Proof.
  unfold INPUT_FIELDS.
  intros [<-|[<-|[<-|[<-|[<-|[]]]]]]; cbn; discriminate.
Qed.

Lemma rules_required_message field formData :
  In field INPUT_FIELDS ->
  InputField.validate field (lit "") formData
    = required_message (InputField.id field).
Proof.
  unfold INPUT_FIELDS.
  intros [<-|[<-|[<-|[<-|[<-|[]]]]]]; reflexivity.
Qed.

(** X1. A draft with an empty entry is never sent: the submit posts
    nothing, keeps the draft, and records the field's "... is required"
    message in the error map. *)
Theorem empty_field_blocks_submit (st : State) (o : Outcome) (key : FieldId) :
  formData st key = lit "" ->
  posts (snd (handleSubmit st o)) = []
  /\ formData (fst (handleSubmit st o)) = formData st
  /\ errors (fst (handleSubmit st o)) !! key = Some (required_message key).
Proof.
  intros Hempty.
  destruct (INPUT_FIELDS_complete key) as (field & Hin & Hid).
  assert (Hmsg : InputField.validate field (formData st (InputField.id field))
                  (formData st) = required_message key).
  { rewrite Hid, Hempty, <- Hid. apply rules_required_message. exact Hin. }
  assert (Hbad : snd (validateAll (formData st)) = false).
  { apply invalid_field_not_all_valid. exists field. split; [exact Hin|].
    rewrite Hmsg. destruct key; discriminate. }
  unfold handleSubmit. rewrite (handleSubmit_begin_invalid _ Hbad).
  cbn [fst snd posts flat_map app errors formData].
  split; [reflexivity|]. split; [reflexivity|].
  rewrite <- Hid at 1. unfold validateAll.
  rewrite (validate_field_fold_lookup _ _ _ _ INPUT_FIELDS_NoDup Hin).
  rewrite Hmsg. destruct key; reflexivity.
Qed.

(** ** The stock rule *)

Lemma validate_inStockCount_accepts value formData :
  value <> lit "" ->
  (validate_inStockCount value formData = lit "" <->
   parseInt value = NegZero
   \/ exists n : Z, parseInt value = of_Z n /\ 0 <= n <= 2147483647).
Proof.
  intros Hne. value_nonempty value Hne.
  unfold validate_inStockCount. cbn [truthy negb].
  destruct (parseInt_shape (n :: value)) as [H|[H|[[neg H]|[z H]]]];
    rewrite H.
  - split; [intros Hc; vm_compute in Hc; discriminate|].
    intros [[=]|(k & [=] & _)].
  - split; [left; reflexivity|reflexivity].
  - split; [intros Hc; destruct neg; vm_compute in Hc; discriminate|].
    intros [[=]|(k & [=] & _)].
  - rewrite lt_of_Z, gt_of_Z. cbn [isNaN of_Z orb].
    destruct (z <? 0) eqn:E1; [apply Z.ltb_lt in E1|apply Z.ltb_ge in E1].
    + split; [discriminate|]. intros [[=]|(k & Hk & ?)].
      apply of_Z_inj in Hk. lia.
    + destruct (2147483647 <? z) eqn:E2;
        [apply Z.ltb_lt in E2|apply Z.ltb_ge in E2].
      * split; [discriminate|]. intros [[=]|(k & Hk & ?)].
        apply of_Z_inj in Hk. lia.
      * split; [|reflexivity].
        intros _. right. exists z. split; [reflexivity|lia].
Qed.

(** X2. The stock rule accepts a non-empty value exactly when its
    leading digits, after optional white space and sign, denote an integer
    between 0 and 2147483647 (so "-0" passes and "-1" does not). *)
Theorem inStockCount_accepts_digits (value : jsstring) (formData : FormData) :
  value <> lit "" ->
  (validate_inStockCount value formData = lit "" <->
   exists neg n, parseInt_math value = Some (neg, n)
                 /\ 0 <= signed neg n <= 2147483647).
Proof.
  intros Hne. rewrite (validate_inStockCount_accepts _ _ Hne).
  assert (Hbound : 2147483647 < 2 ^ 53) by reflexivity.
  pose proof (parseInt_spec value) as Hspec. split.
  - intros [Hz|(z & Hz & Hrange)].
    + destruct (parseInt_math value) as [[neg n]|];
        [|rewrite Hspec in Hz; discriminate].
      destruct Hspec as (Hn & H0 & Hsmall & Hbig).
      exists neg, n. split; [reflexivity|].
      destruct (Z.eq_dec n 0) as [->|Hn0]; [destruct neg; cbn; lia|exfalso].
      destruct (Z_lt_le_dec n (2 ^ 53)) as [Hlt|Hge].
      * rewrite Hsmall in Hz by lia. discriminate.
      * destruct (Hbig Hge) as [Hinf|(z & _ & Hof)]; rewrite Hz in *;
          discriminate.
    + destruct (parseInt_exact value z Hz) as (neg & n & Hmath & ->); [lia|].
      exists neg, n. split; [exact Hmath|exact Hrange].
  - intros (neg & n & Hmath & Hrange). rewrite Hmath in Hspec.
    destruct Hspec as (Hn & H0 & Hsmall & _).
    destruct (Z.eq_dec n 0) as [->|Hn0].
    + rewrite (H0 eq_refl). destruct neg; [left; reflexivity|].
      right. exists 0. split; [reflexivity|lia].
    + destruct neg; cbn in Hrange; [lia|].
      right. exists n. split; [|exact Hrange]. apply Hsmall. lia.
Qed.

(** ** What a request carries *)

Lemma post_implies_valid st o url body :
  In (axios_post url body) (snd (handleSubmit st o)) ->
  all_valid (formData st)
  /\ url = endpoint /\ body = processedData (formData st).
Proof.
  intros Hin. unfold handleSubmit in Hin.
  destruct (snd (validateAll (formData st))) eqn:E.
  - apply validateAll_isValid in E. split; [exact E|].
    rewrite (handleSubmit_begin_valid _ E) in Hin.
    destruct o; cbn in Hin;
      repeat (destruct Hin as [Hin|Hin]; try discriminate Hin);
      try contradiction; injection Hin as <- <-; split; reflexivity.
  - rewrite (handleSubmit_begin_invalid _ E) in Hin. cbn in Hin.
    destruct Hin as [Hin|[Hin|[]]]; discriminate.
Qed.

Lemma between_bounds x low high :
  isNaN x = false -> lessThan x low = false -> greaterThan x high = false ->
  isNaN low = false -> isNaN high = false ->
  lessThanOrEqual low x = true /\ lessThanOrEqual x high = true.
Proof.
  unfold lessThanOrEqual, greaterThan.
  intros -> -> -> -> ->. split; reflexivity.
Qed.

Lemma validate_unitPrice_inv value formData :
  validate_unitPrice value formData = lit "" ->
  isNaN (parseFloat value) = false
  /\ lessThan (parseFloat value) (of_Z 0) = false
  /\ greaterThan (parseFloat value) lit_999999_99 = false.
Proof.
  unfold validate_unitPrice.
  destruct value as [|c value]; [discriminate|]. cbn [truthy negb].
  destruct (isNaN _); [discriminate|].
  destruct (lessThan _ (of_Z 0)); [discriminate|].
  destruct (greaterThan _ _); [discriminate|]. repeat split.
Qed.

Lemma validate_inStockCount_inv value formData :
  validate_inStockCount value formData = lit "" ->
  isNaN (parseInt value) = false
  /\ lessThan (parseInt value) (of_Z 0) = false
  /\ greaterThan (parseInt value) (of_Z 2147483647) = false.
Proof.
  unfold validate_inStockCount.
  destruct value as [|c value]; [discriminate|]. cbn [truthy negb].
  destruct (isNaN _); [discriminate|].
  destruct (lessThan _ (of_Z 0)); [discriminate|].
  destruct (greaterThan _ _); [discriminate|]. repeat split.
Qed.

Lemma validate_lowStockCount_inv value formData :
  validate_lowStockCount value formData = lit "" ->
  isNaN (parseInt value) = false
  /\ lessThan (parseInt value) (of_Z 0) = false
  /\ greaterThan (parseInt value) (parseInt (formData inStockCount)) = false.
Proof.
  unfold validate_lowStockCount.
  destruct value as [|c value]; [discriminate|]. cbn [truthy negb].
  destruct (isNaN _); [discriminate|].
  destruct (lessThan _ (of_Z 0)); [discriminate|].
  destruct (greaterThan _ _); [discriminate|]. repeat split.
Qed.

Lemma validate_categoryID_inv value formData :
  validate_categoryID value formData = lit "" ->
  isNaN (parseInt value) = false
  /\ lessThan (parseInt value) (of_Z 1000) = false
  /\ greaterThan (parseInt value) (of_Z 9999) = false.
Proof.
  unfold validate_categoryID.
  destruct value as [|c value]; [discriminate|]. cbn [truthy negb].
  destruct (isNaN _); [discriminate|].
  destruct (lessThan _ (of_Z 1000)); [discriminate|].
  destruct (greaterThan _ _); [discriminate|]. repeat split.
Qed.

(** X3. Every request that [handleSubmit] sends goes to the product
    endpoint and carries a name that is not blank and has at most 100 code
    units, a price between 0 and 999999.99, an integer stock count between
    0 and 2147483647, an integer threshold between 0 and the stock count,
    and an integer category between 1000 and 9999. *)
Theorem posted_body_invariants
    (st : State) (o : Outcome) (url : jsstring) (body : ProcessedData.t) :
  In (axios_post url body) (snd (handleSubmit st o)) ->
  url = endpoint
  /\ trim (ProcessedData.pName body) <> lit ""
  /\ JSString.length (ProcessedData.pName body) <= 100
  /\ lessThanOrEqual (of_Z 0) (ProcessedData.unitPrice body) = true
  /\ lessThanOrEqual (ProcessedData.unitPrice body) lit_999999_99 = true
  /\ isInteger (ProcessedData.inStockCount body) = true
  /\ lessThanOrEqual (of_Z 0) (ProcessedData.inStockCount body) = true
  /\ lessThanOrEqual (ProcessedData.inStockCount body) (of_Z 2147483647)
     = true
  /\ isInteger (ProcessedData.lowStockCount body) = true
  /\ lessThanOrEqual (of_Z 0) (ProcessedData.lowStockCount body) = true
  /\ lessThanOrEqual (ProcessedData.lowStockCount body)
       (ProcessedData.inStockCount body) = true
  /\ isInteger (ProcessedData.categoryID body) = true
  /\ lessThanOrEqual (of_Z 1000) (ProcessedData.categoryID body) = true
  /\ lessThanOrEqual (ProcessedData.categoryID body) (of_Z 9999) = true.
Proof.
  intros Hin. destruct (post_implies_valid _ _ _ _ Hin) as (Hvalid & -> & ->).
  apply all_valid_iff in Hvalid as (Hn & Hp & Hs & Hl & Hc).
  cbn [processedData ProcessedData.pName ProcessedData.unitPrice
       ProcessedData.inStockCount ProcessedData.lowStockCount
       ProcessedData.categoryID].
  pose proof (validate_unitPrice_inv _ _ Hp) as (Hp1 & Hp2 & Hp3).
  pose proof (validate_inStockCount_inv _ _ Hs) as (Hs1 & Hs2 & Hs3).
  pose proof (validate_lowStockCount_inv _ _ Hl) as (Hl1 & Hl2 & Hl3).
  pose proof (validate_categoryID_inv _ _ Hc) as (Hc1 & Hc2 & Hc3).
  pose proof (valid_inStockCount_integer _ _ Hs) as [Hsi Hsf].
  pose proof (valid_lowStockCount_integer _ _ Hl Hsf) as [Hli _].
  pose proof (valid_categoryID_integer _ _ Hc) as [Hci _].
  split; [reflexivity|].
  assert (Hname : trim (formData st pName) <> lit ""
                  /\ JSString.length (formData st pName) <= 100).
  { revert Hn. unfold validate_pName.
    destruct (trim (formData st pName)); cbn [truthy negb]; [discriminate|].
    destruct (100 <? JSString.length (formData st pName)) eqn:E;
      [discriminate|].
    apply Z.ltb_ge in E. intros _. split; [discriminate|exact E]. }
  destruct Hname as [Hname1 Hname2].
  destruct (between_bounds _ _ _ Hp1 Hp2 Hp3 eq_refl lit_999999_99_finite).
  destruct (between_bounds _ _ _ Hs1 Hs2 Hs3 eq_refl eq_refl).
  destruct (between_bounds _ _ _ Hl1 Hl2 Hl3 eq_refl Hs1).
  destruct (between_bounds _ _ _ Hc1 Hc2 Hc3 eq_refl eq_refl).
  repeat split; assumption.
Qed.

(** ** The error map along a session *)

Lemma field_by_id f g :
  In f INPUT_FIELDS -> In g INPUT_FIELDS ->
  InputField.id f = InputField.id g -> f = g.
Proof.
  unfold INPUT_FIELDS.
  intros [<-|[<-|[<-|[<-|[<-|[]]]]]] [<-|[<-|[<-|[<-|[<-|[]]]]]];
    cbn [InputField.id]; intros Heq; (reflexivity || discriminate Heq).
Qed.

(** Only the low-stock rule reads the draft. *)
Lemma validate_ignores_draft field value formData formData' :
  In field INPUT_FIELDS -> InputField.id field <> lowStockCount ->
  InputField.validate field value formData
  = InputField.validate field value formData'.
Proof.
  unfold INPUT_FIELDS.
  intros [<-|[<-|[<-|[<-|[<-|[]]]]]] Hne; try reflexivity.
  contradiction Hne. reflexivity.
Qed.

Lemma reachable_pending_no_errors c :
  reachable c -> pending c <> None -> errors (ui c) = ∅.
Proof.
  induction 1 as [|c i effs c' Hreach IH Hstep]; [intros H; contradiction H; reflexivity|].
  pose proof (reachable_flag_pending c Hreach) as Hflag.
  inversion Hstep as
    [c0 name value st' Hidle Hch
    |c0 st' effs0 req Hidle Hbegin
    |c0 o data st' effs0 Hpend Hsettle]; subst; cbn [ui pending].
  - intros Hp. apply Hflag in Hp. congruence.
  - intros Hp.
    destruct (snd (validateAll (formData (ui c)))) eqn:E.
    + apply validateAll_isValid in E.
      rewrite (handleSubmit_begin_valid _ E) in Hbegin.
      injection Hbegin as <- _ _. reflexivity.
    + rewrite (handleSubmit_begin_invalid _ E) in Hbegin.
      injection Hbegin as _ _ <-. contradiction Hp. reflexivity.
  - intros Hp. contradiction Hp. reflexivity.
Qed.

(** X5. In every reachable configuration, an error entry of a field
    other than the low-stock threshold is the message that the field's rule
    gives on the current draft. *)
Theorem errors_current_except_lowStock (c : Config) (field : InputField.t) :
  reachable c ->
  In field INPUT_FIELDS -> InputField.id field <> lowStockCount ->
  entry_current (ui c) field.
Proof.
  intros Hreach Hin Hne.
  induction Hreach as [|c i effs c' Hreach IH Hstep].
  - intros msg Hmsg. cbn in Hmsg. rewrite lookup_empty in Hmsg. discriminate.
  - inversion Hstep as
      [c0 name value st' Hidle Hch
      |c0 st' effs0 req Hidle Hbegin
      |c0 o data st' effs0 Hpend Hsettle]; subst; cbn [ui].
    + destruct (handleChange_defined (ui c) name value)
        as (f & Hf & Hid & Heq).
      rewrite Heq in Hch. injection Hch as <-.
      intros msg. cbn [errors formData].
      destruct (decide (name = InputField.id field)) as [->|Hother].
      * rewrite lookup_insert_eq. intros [= <-].
        assert (Hnew : (<[InputField.id field := value]> (formData (ui c)))
                         (InputField.id field) = value)
          by apply fn_lookup_insert.
        rewrite Hnew, (field_by_id f field Hf Hin Hid).
        symmetry. apply validate_own_entry. exact Hin.
      * rewrite lookup_insert_ne by exact Hother.
        assert (Hold : (<[name := value]> (formData (ui c)))
                         (InputField.id field)
                       = formData (ui c) (InputField.id field))
          by (apply fn_lookup_insert_ne; exact Hother).
        rewrite Hold. intros Hmsg. rewrite (IH msg Hmsg).
        apply validate_ignores_draft; assumption.
    + intros msg Hmsg.
      pose proof (handleSubmit_begin_errors (ui c)) as [Herr Hfd].
      rewrite Hbegin in Herr, Hfd. cbn [fst] in Herr, Hfd.
      rewrite Herr in Hmsg. unfold validateAll in Hmsg.
      rewrite (validate_field_fold_lookup _ _ _ _ INPUT_FIELDS_NoDup Hin)
        in Hmsg.
      cbn [fst] in Hmsg. rewrite lookup_empty in Hmsg. rewrite Hfd.
      destruct (truthy _); [|discriminate]. injection Hmsg as <-.
      reflexivity.
    + assert (Hempty : errors (ui c) = ∅)
        by (apply reachable_pending_no_errors; [exact Hreach|congruence]).
      intros msg Hmsg. unfold handleSubmit_settle in Hsettle.
      destruct o; injection Hsettle as <- _; cbn [errors] in Hmsg;
        rewrite Hempty, lookup_empty in Hmsg; discriminate.
Qed.

(** ** The cross-field bound at submit *)

Lemma validate_lowStockCount_rejects_greater value formData :
  greaterThan (parseInt value) (parseInt (formData inStockCount)) = true ->
  validate_lowStockCount value formData <> lit "".
Proof.
  intros Hgt. unfold validate_lowStockCount.
  assert (Hnan : isNaN (parseInt value) = false).
  { destruct (parseInt value); [|reflexivity..].
    unfold greaterThan in Hgt. rewrite lt_NaN_r in Hgt. discriminate. }
  destruct value as [|c value]; [rewrite parseInt_nil in Hnan; discriminate|].
  cbn [truthy negb]. rewrite Hnan, Hgt. cbn [orb].
  destruct (lessThan _ (of_Z 0)); discriminate.
Qed.

(** X6. Changing the stock count to less than the draft's threshold
    leaves the threshold's error entry as it was, but the next submit sends
    nothing and records the low-stock rule's message. *)
Theorem stock_change_leaves_threshold_to_submit
    (st : State) (value : jsstring) (o : Outcome) :
  greaterThan (parseInt (formData st lowStockCount)) (parseInt value) = true ->
  exists st',
    handleChange st inStockCount value = Some st'
    /\ errors st' !! lowStockCount = errors st !! lowStockCount
    /\ posts (snd (handleSubmit st' o)) = []
    /\ errors (fst (handleSubmit st' o)) !! lowStockCount
       = Some (validate_lowStockCount (formData st lowStockCount)
                 (formData st'))
    /\ validate_lowStockCount (formData st lowStockCount) (formData st')
       <> lit "".
Proof.
  intros Hgt.
  destruct (handleChange_defined st inStockCount value) as (f & _ & _ & Heq).
  eexists. split; [exact Heq|]. cbn [errors formData].
  set (draft := <[inStockCount := value]> (formData st)).
  assert (Hrej : validate_lowStockCount (formData st lowStockCount) draft
                 <> lit "")
    by (apply validate_lowStockCount_rejects_greater; exact Hgt).
  set (field := InputField.Build lowStockCount
                  (lit "Low Stock Alert Threshold") (lit "number")
                  (Some (lit "0")) None None None validate_lowStockCount).
  assert (Hin : In field INPUT_FIELDS) by (do 3 right; left; reflexivity).
  split; [apply lookup_insert_ne; discriminate|].
  match goal with |- context [handleSubmit ?s o] => set (st' := s) end.
  assert (Hbad : snd (validateAll (formData st')) = false).
  { apply invalid_field_not_all_valid. exists field.
    split; [exact Hin|exact Hrej]. }
  unfold handleSubmit. rewrite (handleSubmit_begin_invalid _ Hbad).
  cbn [fst snd posts flat_map app errors].
  split; [reflexivity|]. split; [|exact Hrej].
  unfold validateAll.
  rewrite (validate_field_fold_lookup _ _ _ _ INPUT_FIELDS_NoDup Hin).
  cbn [InputField.validate InputField.id field].
  change (formData st' lowStockCount) with (formData st lowStockCount).
  change (formData st') with draft.
  destruct (validate_lowStockCount _ draft); [contradiction Hrej|];
    reflexivity.
Qed.

(** ** Requests along a session *)

Lemma posts_app effs effs' : posts (effs ++ effs') = posts effs ++ posts effs'.
Proof. unfold posts. apply flat_map_app. Qed.

Lemma step_requests c i effs c' :
  reachable c -> step c i effs c' ->
  (List.length (posts effs) + in_flight c
   = (if is_settle i then 1 else 0) + in_flight c')%nat.
Proof.
  intros Hreach Hstep.
  pose proof (reachable_flag_pending c Hreach) as Hflag.
  inversion Hstep as
    [c0 name value st' Hidle Hch
    |c0 st' effs0 req Hidle Hbegin
    |c0 o data st' effs0 Hpend Hsettle]; subst;
    unfold in_flight; cbn [pending is_settle].
  - reflexivity.
  - assert (Hnone : pending c = None).
    { destruct (pending c) eqn:E; [|reflexivity].
      assert (isSubmitting (ui c) = true) by (apply Hflag; congruence).
      congruence. }
    rewrite Hnone.
    destruct (snd (validateAll (formData (ui c)))) eqn:E.
    + apply validateAll_isValid in E.
      rewrite (handleSubmit_begin_valid _ E) in Hbegin.
      injection Hbegin as _ <- <-. reflexivity.
    + rewrite (handleSubmit_begin_invalid _ E) in Hbegin.
      injection Hbegin as _ <- <-. reflexivity.
  - rewrite Hpend. unfold handleSubmit_settle in Hsettle.
    destruct o; injection Hsettle as _ <-; reflexivity.
Qed.

(** X8. Along any run from a reachable configuration, the requests
    sent plus the one pending at the start equal the requests settled plus
    the one pending at the end: a new request is sent only after the
    previous one has settled. *)
Theorem requests_settle_one_by_one
    (c : Config) (tr : list (Input * list Effect)) (c' : Config) :
  reachable c -> run c tr c' ->
  (requests tr + in_flight c = settles tr + in_flight c')%nat.
Proof.
  intros Hreach Hrun. induction Hrun as [c|c i effs c1 tr c2 Hstep Hrun IH].
  - reflexivity.
  - pose proof (step_requests c i effs c1 Hreach Hstep) as Hone.
    specialize (IH (reachable_step _ _ _ _ Hreach Hstep)).
    unfold requests, settles in *. cbn [flat_map snd List.filter fst].
    rewrite posts_app, length_app.
    destruct (is_settle i); cbn [List.length] in *; lia.
Qed.

(** ** Successive changes *)

Lemma handleChange_twice st name1 value1 name2 value2 :
  exists f1 f2,
    In f1 INPUT_FIELDS /\ InputField.id f1 = name1
    /\ In f2 INPUT_FIELDS /\ InputField.id f2 = name2
    /\ (handleChange st name1 value1
          ≫= fun st1 => handleChange st1 name2 value2)
       = Some {| formData :=
                   <[name2 := value2]> (<[name1 := value1]> (formData st));
                 errors :=
                   <[name2 := InputField.validate f2 value2
                                (<[name1 := value1]> (formData st))]>
                     (<[name1 := InputField.validate f1 value1
                                   (formData st)]> (errors st));
                 isSubmitting := isSubmitting st |}.
Proof.
  destruct (handleChange_defined st name1 value1) as (f1 & Hf1 & Hid1 & ->).
  cbn [mbind option_bind].
  match goal with |- context [handleChange ?s name2 value2] =>
    destruct (handleChange_defined s name2 value2) as (f2 & Hf2 & Hid2 & ->)
  end.
  exists f1, f2. repeat split; assumption.
Qed.

(** X10. Typing into the same field twice leaves the state that the
    second value alone gives: same draft, same error map. *)
Theorem handleChange_last_write_wins
    (st : State) (name : FieldId) (value1 value2 : jsstring) :
  exists st12 st2,
    (handleChange st name value1
       ≫= fun st1 => handleChange st1 name value2) = Some st12
    /\ handleChange st name value2 = Some st2
    /\ errors st12 = errors st2
    /\ (forall key, formData st12 key = formData st2 key)
    /\ isSubmitting st12 = isSubmitting st2.
Proof.
  destruct (handleChange_twice st name value1 name value2)
    as (f1 & f2 & Hf1 & Hid1 & Hf2 & Hid2 & ->).
  destruct (handleChange_defined st name value2) as (f & Hf & Hid & ->).
  do 2 eexists. split; [reflexivity|]. split; [reflexivity|].
  cbn [errors formData isSubmitting].
  split; [|split; [|reflexivity]].
  - rewrite insert_insert_eq.
    rewrite (field_by_id f2 f Hf2 Hf) by congruence.
    rewrite <- Hid at 2. rewrite (validate_own_entry _ _ _ _ Hf).
    reflexivity.
  - intros key. destruct (decide (name = key)) as [->|Hne].
    + transitivity value2; [|symmetry]; apply fn_lookup_insert.
    + transitivity (formData st key); [|symmetry].
      * transitivity ((<[name := value1]> (formData st)) key);
          apply fn_lookup_insert_ne; exact Hne.
      * apply fn_lookup_insert_ne; exact Hne.
Qed.

(** A rule sees the draft through [inStockCount] at most. *)
Lemma validate_reads_stock_only field value formData formData' :
  In field INPUT_FIELDS ->
  formData inStockCount = formData' inStockCount ->
  InputField.validate field value formData
  = InputField.validate field value formData'.
Proof.
  unfold INPUT_FIELDS.
  intros [<-|[<-|[<-|[<-|[<-|[]]]]]] Hstock; try reflexivity.
  cbn [InputField.validate]. unfold validate_lowStockCount.
  rewrite Hstock. reflexivity.
Qed.

(** X11. Changes of two different fields commute, unless the two are
    the stock count and the low-stock threshold. *)
Theorem handleChange_commute
    (st : State) (name1 name2 : FieldId) (value1 value2 : jsstring) :
  name1 <> name2 ->
  ~ (name1 = inStockCount /\ name2 = lowStockCount) ->
  ~ (name1 = lowStockCount /\ name2 = inStockCount) ->
  exists st12 st21,
    (handleChange st name1 value1
       ≫= fun st1 => handleChange st1 name2 value2) = Some st12
    /\ (handleChange st name2 value2
          ≫= fun st2 => handleChange st2 name1 value1) = Some st21
    /\ errors st12 = errors st21
    /\ (forall key, formData st12 key = formData st21 key)
    /\ isSubmitting st12 = isSubmitting st21.
Proof.
  intros Hne Hpair1 Hpair2.
  destruct (handleChange_twice st name1 value1 name2 value2)
    as (f1 & f2 & Hf1 & Hid1 & Hf2 & Hid2 & ->).
  destruct (handleChange_twice st name2 value2 name1 value1)
    as (g2 & g1 & Hg2 & Hjd2 & Hg1 & Hjd1 & ->).
  do 2 eexists. split; [reflexivity|]. split; [reflexivity|].
  cbn [errors formData isSubmitting].
  rewrite (field_by_id g1 f1 Hg1 Hf1) by congruence.
  rewrite (field_by_id g2 f2 Hg2 Hf2) by congruence.
  split; [|split; [|reflexivity]].
  - rewrite insert_insert_ne by congruence.
    assert (H2 : InputField.validate f2 value2
                   (<[name1 := value1]> (formData st))
                 = InputField.validate f2 value2 (formData st)).
    { destruct (decide (InputField.id f2 = lowStockCount)) as [Hlow|Hlow].
      - apply validate_reads_stock_only; [exact Hf2|].
        apply fn_lookup_insert_ne. intros ->. apply Hpair1.
        split; [reflexivity|congruence].
      - apply validate_ignores_draft; assumption. }
    assert (H1 : InputField.validate f1 value1
                   (<[name2 := value2]> (formData st))
                 = InputField.validate f1 value1 (formData st)).
    { destruct (decide (InputField.id f1 = lowStockCount)) as [Hlow|Hlow].
      - apply validate_reads_stock_only; [exact Hf1|].
        apply fn_lookup_insert_ne. intros ->. apply Hpair2.
        split; [congruence|reflexivity].
      - apply validate_ignores_draft; assumption. }
    rewrite H1, H2. reflexivity.
  - intros key.
    destruct (decide (name2 = key)) as [->|Hk2].
    + transitivity value2; [apply fn_lookup_insert|symmetry].
      transitivity ((<[key := value2]> (formData st)) key);
        [apply fn_lookup_insert_ne; exact Hne|apply fn_lookup_insert].
    + transitivity ((<[name1 := value1]> (formData st)) key);
        [apply fn_lookup_insert_ne; exact Hk2|symmetry].
      destruct (decide (name1 = key)) as [->|Hk1].
      * transitivity value1; [|symmetry]; apply fn_lookup_insert.
      * transitivity ((<[name2 := value2]> (formData st)) key);
          [apply fn_lookup_insert_ne; exact Hk1|].
        transitivity (formData st key); [|symmetry];
          apply fn_lookup_insert_ne; assumption.
Qed.

(** ** The count rules read a leading integer *)

Lemma decimal_digit_cases c :
  is_decimal_digit c = true ->
  (c = 48 \/ c = 49 \/ c = 50 \/ c = 51 \/ c = 52 \/ c = 53 \/ c = 54
   \/ c = 55 \/ c = 56 \/ c = 57)%N.
Proof.
  unfold is_decimal_digit. intros H. apply andb_prop in H as [H1 H2].
  apply N.leb_le in H1, H2. lia.
Qed.

Lemma digit_value_decimal c :
  is_decimal_digit c = true -> digit_value 10 c <> None.
Proof.
  intros H. apply decimal_digit_cases in H.
  repeat (destruct H as [->|H]; [discriminate|]). subst. discriminate.
Qed.

Lemma digit_value_not_decimal c :
  is_decimal_digit c = false -> digit_value 10 c = None.
Proof.
  unfold is_decimal_digit, digit_value. intros ->.
  destruct ((97 <=? c) && (c <=? 122))%N eqn:E1.
  - apply andb_prop in E1 as [H1 _]. apply N.leb_le in H1.
    destruct (c - 87 <? 10)%N eqn:E; [apply N.ltb_lt in E; lia|reflexivity].
  - destruct ((65 <=? c) && (c <=? 90))%N eqn:E2; [|reflexivity].
    apply andb_prop in E2 as [H1 _]. apply N.leb_le in H1.
    destruct (c - 55 <? 10)%N eqn:E; [apply N.ltb_lt in E; lia|reflexivity].
Qed.

Lemma span_digits_suffix ds c rest :
  forallb is_decimal_digit ds = true -> is_decimal_digit c = false ->
  fst (span_digits 10 (ds ++ c :: rest)) = fst (span_digits 10 ds).
Proof.
  intros Hds Hc. induction ds as [|d ds IH]; cbn [app span_digits].
  - rewrite (digit_value_not_decimal c Hc). reflexivity.
  - cbn [forallb] in Hds. apply andb_prop in Hds as [Hd Hds].
    destruct (digit_value 10 d); [|reflexivity].
    specialize (IH Hds).
    destruct (span_digits 10 (ds ++ c :: rest)), (span_digits 10 ds).
    cbn [fst] in *. congruence.
Qed.

Lemma parseInt_math_decimal d tail :
  is_decimal_digit d = true ->
  match tail with
  | x :: _ => ((x =? 120) || (x =? 88))%N = false
  | [] => True
  end ->
  parseInt_math (d :: tail)
  = match fst (span_digits 10 (d :: tail)) with
    | [] => None
    | ds => Some (false, digits_value 10 ds)
    end.
Proof.
  intros Hd Htail. apply decimal_digit_cases in Hd.
  unfold parseInt_math.
  destruct tail as [|x r];
    repeat (destruct Hd as [->|Hd];
            [cbn [trim_start is_whitespace strip_sign]; cbn -[span_digits];
             rewrite ?Htail; reflexivity|]);
    subst d; cbn -[span_digits]; rewrite ?Htail; reflexivity.
Qed.

Lemma parseInt_math_suffix ds c rest :
  ds <> [] -> forallb is_decimal_digit ds = true ->
  is_decimal_digit c = false -> c <> 120%N -> c <> 88%N ->
  parseInt_math (ds ++ c :: rest) = parseInt_math ds.
Proof.
  intros Hne Hds Hc Hx HX.
  pose proof (span_digits_suffix ds c rest Hds Hc) as Hspan.
  destruct ds as [|d ds]; [contradiction Hne; reflexivity|].
  cbn [forallb] in Hds. apply andb_prop in Hds as [Hd Hds].
  cbn [app] in *.
  rewrite !parseInt_math_decimal; try assumption.
  - rewrite Hspan. reflexivity.
  - destruct ds as [|d2 ds]; [exact I|].
    cbn [forallb] in Hds. apply andb_prop in Hds as [Hd2 _].
    apply decimal_digit_cases in Hd2.
    repeat (destruct Hd2 as [->|Hd2]; [reflexivity|]). subst. reflexivity.
  - destruct ds as [|d2 ds]; cbn [app].
    + apply orb_false_intro; apply N.eqb_neq; assumption.
    + cbn [forallb] in Hds. apply andb_prop in Hds as [Hd2 _].
      apply decimal_digit_cases in Hd2.
      repeat (destruct Hd2 as [->|Hd2]; [reflexivity|]). subst. reflexivity.
Qed.

(** X9. The three integer rules read only the leading digits: after a
    non-empty run of decimal digits, a character that is neither a digit
    nor [x]/[X] and whatever follows it change neither [parseInt] nor the
    verdict of the rule ("12.5" counts as 12). *)
Theorem count_rules_read_leading_digits
    (ds : jsstring) (c : N) (rest : jsstring) (formData : FormData) :
  ds <> lit "" -> forallb is_decimal_digit ds = true ->
  is_decimal_digit c = false -> c <> 120%N -> c <> 88%N ->
  parseInt (ds ++ c :: rest) = parseInt ds
  /\ validate_inStockCount (ds ++ c :: rest) formData
     = validate_inStockCount ds formData
  /\ validate_lowStockCount (ds ++ c :: rest) formData
     = validate_lowStockCount ds formData
  /\ validate_categoryID (ds ++ c :: rest) formData
     = validate_categoryID ds formData.
Proof.
  intros Hne Hds Hc Hx HX.
  assert (Hparse : parseInt (ds ++ c :: rest) = parseInt ds).
  { unfold parseInt. rewrite parseInt_math_suffix by assumption.
    reflexivity. }
  unfold validate_inStockCount, validate_lowStockCount, validate_categoryID.
  rewrite Hparse.
  destruct ds as [|d ds]; [contradiction Hne; reflexivity|].
  repeat split.
Qed.

(** ** The view *)

Lemma render_field_view st field :
  In field INPUT_FIELDS ->
  map (get_attr "disabled") (controls (render_field st field))
    = [Some (attr_bool (isSubmitting st))]
  /\ button_texts (render_field st field) = []
  /\ paragraphs (render_field st field)
     = shown_error (errors st !! InputField.id field).
Proof.
  unfold INPUT_FIELDS.
  intros [<-|[<-|[<-|[<-|[<-|[]]]]]]; unfold render_field, button_texts;
    cbn [InputField.id InputField.min InputField.max InputField.step
         InputField.placeholder];
    match goal with |- context [errors st !! ?k] =>
      destruct (errors st !! k) as [[|c e]|]
    end; repeat split.
Qed.

Lemma flat_map_of_map {A B C} (g : B -> list C) (f : A -> B) l :
  flat_map g (map f l) = flat_map (fun x => g (f x)) l.
Proof.
  induction l as [|x l IH]; [reflexivity|]. cbn [map flat_map].
  rewrite IH. reflexivity.
Qed.

Lemma render_controls st :
  controls (render st)
  = close_button st
      :: flat_map (fun field => controls (render_field st field)) INPUT_FIELDS
      ++ [cancel_button st; submit_button st].
Proof.
  assert (Hsubmit : controls (submit_button st) = [submit_button st])
    by (unfold submit_button; destruct (isSubmitting st); reflexivity).
  unfold render.
  change (controls (element "div" [] ?cs)) with (flat_map controls cs).
  cbn [flat_map].
  change (controls (element "div" ?a [element "h3" ?b ?c; close_button st]))
    with [close_button st].
  change (controls (element "form" ?a ?cs)) with (flat_map controls cs).
  cbn [flat_map].
  change (controls (element "div" ?a (map ?f ?l)))
    with (flat_map controls (map f l)).
  change (controls (element "div" ?a [cancel_button st; submit_button st]))
    with (cancel_button st :: (controls (submit_button st) ++ [])).
  rewrite Hsubmit, flat_map_of_map, !app_nil_r. reflexivity.
Qed.

Lemma render_paragraphs st :
  paragraphs (render st)
  = flat_map (fun field => paragraphs (render_field st field)) INPUT_FIELDS.
Proof.
  assert (Hsubmit : paragraphs (submit_button st) = [])
    by (unfold submit_button; destruct (isSubmitting st); reflexivity).
  unfold render.
  change (paragraphs (element "div" [] ?cs)) with (flat_map paragraphs cs).
  cbn [flat_map].
  change (paragraphs (element "div" ?a [element "h3" ?b ?c; close_button st]))
    with (@nil jsstring).
  change (paragraphs (element "form" ?a ?cs)) with (flat_map paragraphs cs).
  cbn [flat_map].
  change (paragraphs (element "div" ?a (map ?f ?l)))
    with (flat_map paragraphs (map f l)).
  change (paragraphs (element "div" ?a [cancel_button st; submit_button st]))
    with (paragraphs (submit_button st) ++ []).
  rewrite Hsubmit, flat_map_of_map, !app_nil_r. reflexivity.
Qed.

Lemma flat_map_fields {B} (f g : InputField.t -> list B) :
  (forall field, In field INPUT_FIELDS -> f field = g field) ->
  flat_map f INPUT_FIELDS = flat_map g INPUT_FIELDS.
Proof.
  generalize INPUT_FIELDS. intros l H. induction l as [|x l IH];
    [reflexivity|].
  cbn [flat_map]. rewrite H by (left; reflexivity).
  rewrite IH by (intros; apply H; right; assumption). reflexivity.
Qed.

Lemma map_of_flat_map {A B C} (h : B -> C) (g : A -> list B) l :
  map h (flat_map g l) = flat_map (fun x => map h (g x)) l.
Proof.
  induction l as [|x l IH]; [reflexivity|]. cbn [flat_map].
  rewrite map_app, IH. reflexivity.
Qed.

Lemma flat_map_of_flat_map {A B C} (h : B -> list C) (g : A -> list B) l :
  flat_map h (flat_map g l) = flat_map (fun x => flat_map h (g x)) l.
Proof.
  induction l as [|x l IH]; [reflexivity|]. cbn [flat_map].
  rewrite flat_map_app, IH. reflexivity.
Qed.

(** X12. In every reachable configuration the eight controls of the
    returned element tree (the X button, the five inputs, Cancel, submit)
    are disabled exactly while a request is pending, and the submit button
    reads "Adding..." then and "Add Product" otherwise. *)
Theorem controls_disabled_while_pending (c : Config) :
  reachable c ->
  map (get_attr "disabled") (controls (render (ui c)))
    = repeat (Some (attr_bool (busy c))) 8
  /\ button_texts (render (ui c))
     = [lit "Cancel"; if busy c then lit "Adding..." else lit "Add Product"].
Proof.
  intros Hreach.
  assert (Hflag : isSubmitting (ui c) = busy c).
  { pose proof (reachable_flag_pending c Hreach) as H. unfold busy.
    destruct (pending c).
    - apply H. discriminate.
    - destruct (isSubmitting (ui c)); [|reflexivity].
      exfalso. apply (proj1 H eq_refl). reflexivity. }
  unfold button_texts. rewrite render_controls. split.
  - cbn [map]. rewrite map_app, map_of_flat_map.
    rewrite (flat_map_fields _
               (fun _ => [Some (attr_bool (isSubmitting (ui c)))]))
      by (intros field Hin; apply render_field_view; exact Hin).
    unfold close_button, cancel_button, submit_button.
    cbn. rewrite Hflag. reflexivity.
  - cbn [flat_map]. rewrite flat_map_app, flat_map_of_flat_map.
    rewrite (flat_map_fields _ (fun _ => []))
      by (intros field Hin;
          apply (proj1 (proj2 (render_field_view (ui c) field Hin)))).
    unfold close_button, cancel_button, submit_button.
    rewrite Hflag. destruct (busy c); reflexivity.
Qed.

(** X13. After the validation pass of a submit, the [p] elements of the
    returned tree show the non-empty messages of the rules on the draft, in
    the order of [INPUT_FIELDS], and nothing else. *)
Theorem messages_shown_after_submit (st : State) :
  paragraphs (render (fst (fst (handleSubmit_begin st))))
  = flat_map
      (fun field =>
         let error :=
           InputField.validate field (formData st (InputField.id field))
             (formData st) in
         if truthy error then [error] else [])
      INPUT_FIELDS.
Proof.
  rewrite render_paragraphs. apply flat_map_fields. intros field Hin.
  rewrite (proj2 (proj2 (render_field_view _ field Hin))).
  destruct (handleSubmit_begin_errors st) as [-> _]. unfold validateAll.
  rewrite (validate_field_fold_lookup _ _ _ _ INPUT_FIELDS_NoDup Hin).
  cbn [fst]. rewrite lookup_empty.
  destruct (InputField.validate field _ _); reflexivity.
Qed.

Lemma render_field_value st field :
  In field INPUT_FIELDS ->
  input_values (render_field st field)
  = [(field_name (InputField.id field), formData st (InputField.id field))].
Proof.
  unfold INPUT_FIELDS.
  intros [<-|[<-|[<-|[<-|[<-|[]]]]]]; unfold render_field, input_values;
    cbn [InputField.id InputField.min InputField.max InputField.step
         InputField.placeholder];
    match goal with |- context [errors st !! ?k] =>
      destruct (errors st !! k) as [[|c e]|]
    end; reflexivity.
Qed.

Lemma render_input_values st :
  input_values (render st)
  = map (fun field =>
           (field_name (InputField.id field),
            formData st (InputField.id field)))
      INPUT_FIELDS.
Proof.
  unfold input_values. rewrite render_controls.
  cbn [flat_map]. rewrite flat_map_app, flat_map_of_flat_map.
  rewrite (flat_map_fields _
             (fun field => [(field_name (InputField.id field),
                             formData st (InputField.id field))]))
    by (intros field Hin; apply (render_field_value st field Hin)).
  unfold close_button, cancel_button, submit_button. cbn.
  reflexivity.
Qed.

(** X14. After a change the inputs display the draft with the new
    value in the changed field: the typed value is what the input shows. *)
Theorem typed_value_is_displayed
    (st : State) (name : FieldId) (value : jsstring) :
  exists st',
    handleChange st name value = Some st'
    /\ input_values (render st')
       = map (fun field =>
                (field_name (InputField.id field),
                 if decide (InputField.id field = name) then value
                 else formData st (InputField.id field)))
           INPUT_FIELDS
    /\ In (field_name name, value) (input_values (render st')).
Proof.
  destruct (handleChange_defined st name value) as (f & Hf & Hid & Heq).
  eexists. split; [exact Heq|]. rewrite render_input_values.
  cbn [formData].
  assert (Hmap :
    map (fun field =>
           (field_name (InputField.id field),
            (<[name := value]> (formData st)) (InputField.id field)))
      INPUT_FIELDS
    = map (fun field =>
             (field_name (InputField.id field),
              if decide (InputField.id field = name) then value
              else formData st (InputField.id field)))
        INPUT_FIELDS).
  { apply map_ext. intros field.
    destruct (decide (InputField.id field = name)) as [->|Hne].
    - f_equal. apply fn_lookup_insert.
    - f_equal. apply fn_lookup_insert_ne. congruence. }
  split; [exact Hmap|]. rewrite Hmap.
  apply in_map_iff. exists f. split; [|exact Hf].
  rewrite Hid. destruct (decide (name = name)); [reflexivity|contradiction].
Qed.

(** ** When the form asks to be closed *)

Lemma step_onClose
    (c : Config) (i : Input) (effs : list Effect) (c' : Config) :
  step c i effs c' ->
  (In onClose effs <-> i = Settle Fulfilled)
  /\ ((forall name value, i <> Change name value) ->
      i <> Settle Fulfilled ->
      formData (ui c') = formData (ui c)).
Proof.
  intros Hstep. inversion Hstep as
    [c0 name value st' Hidle Hch
    |c0 st' effs0 req Hidle Hbegin
    |c0 o data st' effs0 Hpend Hsettle]; subst; cbn [ui].
  - split; [split; [intros []|discriminate]|].
    intros Hnot. contradiction (Hnot name value). reflexivity.
  - split.
    + split; [|discriminate]. intros Hin. exfalso.
      destruct (snd (validateAll (formData (ui c)))) eqn:E.
      * apply validateAll_isValid in E.
        rewrite (handleSubmit_begin_valid _ E) in Hbegin.
        injection Hbegin as _ <- _.
        destruct Hin as [H|[H|[H|[]]]]; discriminate.
      * rewrite (handleSubmit_begin_invalid _ E) in Hbegin.
        injection Hbegin as _ <- _.
        destruct Hin as [H|[H|[]]]; discriminate.
    + intros _ _. pose proof (handleSubmit_begin_errors (ui c)) as [_ Hfd].
      rewrite Hbegin in Hfd. exact Hfd.
  - unfold handleSubmit_settle in Hsettle.
    destruct o as [|error]; injection Hsettle as <- <-.
    + split; [split; [reflexivity|intros _; right; left; reflexivity]|].
      intros _ Hnot. contradiction Hnot. reflexivity.
    + split; [|reflexivity].
      split; [intros [H|[]]; discriminate|discriminate].
Qed.

(** X15. A step of the form calls [onClose] exactly when it settles a
    fulfilled request; a step that is neither a change nor that one leaves
    the draft as it was. *)
Theorem onClose_only_when_fulfilled
    (c : Config) (i : Input) (effs : list Effect) (c' : Config) :
  step c i effs c' ->
  (In onClose effs <-> i = Settle Fulfilled)
  /\ ((forall name value, i <> Change name value) ->
      i <> Settle Fulfilled ->
      formData (ui c') = formData (ui c)).
Proof. apply step_onClose. Qed.

(** ** The product page around the form *)

Lemma existsb_onClose effs : existsb is_onClose effs = true <-> In onClose effs.
Proof.
  rewrite existsb_exists. split.
  - intros (e & Hin & He). destruct e; try discriminate. exact Hin.
  - intros Hin. exists onClose. split; [exact Hin|reflexivity].
Qed.

Lemma page_invariant p :
  page_reachable p ->
  (showAddForm p = true <-> form p <> None)
  /\ (forall c, form p = Some c -> reachable c).
Proof.
  induction 1 as [|p i effs p' Hreach [IHshow IHform] Hstep].
  - split; [split; [discriminate|intros H; contradiction H; reflexivity]|].
    discriminate.
  - inversion Hstep as [p0|p0 c Hform Hidle|p0 c j effs0 c' Hform Hst];
      subst.
    + split; [split; [discriminate|reflexivity]|].
      intros c [= <-]. destruct (form p) as [c0|] eqn:E;
        [apply IHform; reflexivity|apply reachable_init].
    + split; [split; [discriminate|intros H; contradiction H; reflexivity]|].
      discriminate.
    + destruct (existsb is_onClose effs).
      * split; [split; [discriminate|intros H; contradiction H; reflexivity]|].
        discriminate.
      * split; [split; [discriminate|reflexivity]|].
        intros c0 [= <-]. eapply reachable_step; [|exact Hst].
        apply IHform. exact Hform.
Qed.

(** X16. On a reachable page with the form mounted, the form is in a
    reachable configuration, and a step hides the modal exactly when it is
    a click on X or Cancel or the settling of a fulfilled request; the
    click finds no request pending. *)
Theorem modal_closes_idle_or_fulfilled
    (p : Page) (i : PageInput) (effs : list Effect) (p' : Page) (c : Config) :
  page_reachable p -> page_step p i effs p' -> form p = Some c ->
  reachable c
  /\ (showAddForm p' = false <->
      i = ClickClose \/ i = InForm (Settle Fulfilled))
  /\ (showAddForm p' = false -> form p' = None /\ In onClose effs)
  /\ (i = ClickClose -> pending c = None).
Proof.
  intros Hreach Hstep Hform.
  destruct (page_invariant p Hreach) as [_ Hc]. specialize (Hc c Hform).
  split; [exact Hc|].
  inversion Hstep as [p0|p0 c0 Hform0 Hidle|p0 c0 j effs0 c' Hform0 Hst];
    subst.
  - cbn. split; [split; [discriminate|intros [H|H]; discriminate]|].
    split; [discriminate|discriminate].
  - cbn. split; [split; [left; reflexivity|reflexivity]|].
    split; [intros _; split; [reflexivity|left; reflexivity]|].
    intros _. rewrite Hform in Hform0. injection Hform0 as <-.
    pose proof (reachable_flag_pending c Hc) as Hflag.
    destruct (pending c) eqn:E; [|reflexivity].
    assert (isSubmitting (ui c) = true) by (apply Hflag; discriminate).
    congruence.
  - rewrite Hform in Hform0. injection Hform0 as <-.
    pose proof (step_onClose c j effs c' Hst) as [Hclose _].
    destruct (existsb is_onClose effs) eqn:E.
    + apply existsb_onClose in E. cbn.
      split; [split; [intros _; right; f_equal; apply Hclose; exact E
                     |reflexivity]|].
      split; [intros _; split; [reflexivity|exact E]|discriminate].
    + cbn. split; [|split; discriminate].
      split; [discriminate|].
      intros [H|[= ->]]; [discriminate|].
      assert (In onClose effs) by (apply Hclose; reflexivity).
      apply existsb_onClose in H. congruence.
Qed.

(** ** A request that ends *)

(** X17. When the request of a valid draft is fulfilled, the whole form
    state is the initial one again; when it is rejected, submitting again
    behaves as the first submit did. *)
Theorem valid_submit_final_state (st : State) :
  all_valid (formData st) ->
  fst (handleSubmit st Fulfilled) = initial_state
  /\ forall error o,
       handleSubmit (fst (handleSubmit st (Rejected error))) o
       = handleSubmit st o.
Proof.
  intros Hvalid. unfold handleSubmit at 1.
  rewrite (handleSubmit_begin_valid _ Hvalid). split; [reflexivity|].
  intros error o.
  assert (Hst : fst (handleSubmit st (Rejected error))
                = {| formData := formData st; errors := ∅;
                     isSubmitting := false |}).
  { unfold handleSubmit. rewrite (handleSubmit_begin_valid _ Hvalid).
    reflexivity. }
  rewrite Hst. unfold handleSubmit.
  rewrite !handleSubmit_begin_valid by exact Hvalid. reflexivity.
Qed.

(** ** Instances *)

Lemma config_after_price_step :
  step initial_config (Change unitPrice (lit "-1")) [] config_after_price.
Proof.
  apply (step_change initial_config unitPrice (lit "-1") state_after_price);
    vm_compute; reflexivity.
Qed.

Lemma config_after_price_reachable : reachable config_after_price.
Proof.
  exact (reachable_step _ _ _ _ reachable_init config_after_price_step).
Qed.

Lemma submitting_config_step :
  step submitting_config (Settle Fulfilled)
    (snd (handleSubmit_settle (ui submitting_config) Fulfilled))
    {| ui := fst (handleSubmit_settle (ui submitting_config) Fulfilled);
       pending := None |}.
Proof. eapply step_settle; reflexivity. Qed.

Lemma open_page_reachable : page_reachable open_page.
Proof.
  exact (page_reachable_step _ _ _ _ page_reachable_init
           (page_open closed_page)).
Qed.

Lemma empty_field_blocks_submit_witness :
  posts (snd (handleSubmit initial_state Fulfilled)) = []
  /\ errors (fst (handleSubmit initial_state Fulfilled)) !! pName
     = Some (lit "Product name is required").
Proof.
  destruct (empty_field_blocks_submit initial_state Fulfilled pName eq_refl)
    as (Hposts & _ & Herr).
  split; [exact Hposts|exact Herr].
Defined.

Lemma inStockCount_accepts_digits_witness :
  validate_inStockCount (lit "-0") INITIAL_FORM_STATE = lit "" <->
  exists neg n, parseInt_math (lit "-0") = Some (neg, n)
                /\ 0 <= signed neg n <= 2147483647.
Proof.
  apply (inStockCount_accepts_digits (lit "-0") INITIAL_FORM_STATE).
  discriminate.
Defined.

Lemma posted_body_invariants_witness :
  lessThanOrEqual (parseInt (lit "3")) (parseInt (lit "10")) = true.
Proof.
  destruct (posted_body_invariants valid_state Fulfilled endpoint
              (processedData valid_draft))
    as (_ & _ & _ & _ & _ & _ & _ & _ & _ & _ & Hlow & _); [|exact Hlow].
  unfold handleSubmit.
  rewrite (handleSubmit_begin_valid valid_state valid_draft_all_valid).
  right; right; left. reflexivity.
Defined.

Lemma errors_after_submit_witness :
  errors (fst (fst (handleSubmit_begin initial_state))) !! pName
  = Some (lit "Product name is required").
Proof.
  apply (errors_after_submit initial_state pName_field
           (or_introl eq_refl) (lit "Product name is required")).
  split; [reflexivity|discriminate].
Defined.

Lemma errors_current_except_lowStock_witness :
  entry_current state_after_price unitPrice_field.
Proof.
  apply (errors_current_except_lowStock config_after_price unitPrice_field
           config_after_price_reachable).
  - right; left. reflexivity.
  - discriminate.
Defined.

Lemma stock_change_leaves_threshold_to_submit_witness :
  exists st',
    handleChange valid_state inStockCount (lit "2") = Some st'
    /\ errors st' !! lowStockCount = None
    /\ posts (snd (handleSubmit st' Fulfilled)) = [].
Proof.
  destruct (stock_change_leaves_threshold_to_submit valid_state (lit "2")
              Fulfilled)
    as (st' & Hch & Herr & Hposts & _); [vm_compute; reflexivity|].
  exists st'. split; [exact Hch|]. split; [|exact Hposts].
  rewrite Herr. reflexivity.
Defined.

Lemma typed_config_reachable : reachable typed_config.
Proof.
  assert (H0 : isSubmitting (ui initial_config) = false) by reflexivity.
  pose proof (reachable_step _ _ _ _ reachable_init
                (type_config_step initial_config pName (lit "Green tea") H0))
    as R1.
  assert (H1 : isSubmitting (ui typed_1) = false)
    by (unfold typed_1, type_config; cbn [ui]; rewrite type_into_flag;
        reflexivity).
  pose proof (reachable_step _ _ _ _ R1
                (type_config_step typed_1 unitPrice (lit "2.50") H1)) as R2.
  assert (H2 : isSubmitting (ui typed_2) = false)
    by (unfold typed_2, type_config; cbn [ui]; rewrite type_into_flag;
        exact H1).
  pose proof (reachable_step _ _ _ _ R2
                (type_config_step typed_2 inStockCount (lit "10") H2)) as R3.
  assert (H3 : isSubmitting (ui typed_3) = false)
    by (unfold typed_3, type_config; cbn [ui]; rewrite type_into_flag;
        exact H2).
  pose proof (reachable_step _ _ _ _ R3
                (type_config_step typed_3 lowStockCount (lit "3") H3)) as R4.
  assert (H4 : isSubmitting (ui typed_4) = false)
    by (unfold typed_4, type_config; cbn [ui]; rewrite type_into_flag;
        exact H3).
  exact (reachable_step _ _ _ _ R4
           (type_config_step typed_4 categoryID (lit "1234") H4)).
Qed.

Lemma pending_config_reachable : reachable pending_config.
Proof.
  exact (reachable_step _ _ _ _ typed_config_reachable typed_config_submit).
Qed.

Lemma sample_run_runs : run initial_config sample_run pending_config.
Proof.
  assert (H0 : isSubmitting (ui initial_config) = false) by reflexivity.
  assert (H1 : isSubmitting (ui typed_1) = false)
    by (unfold typed_1, type_config; cbn [ui]; rewrite type_into_flag;
        reflexivity).
  assert (H2 : isSubmitting (ui typed_2) = false)
    by (unfold typed_2, type_config; cbn [ui]; rewrite type_into_flag;
        exact H1).
  assert (H3 : isSubmitting (ui typed_3) = false)
    by (unfold typed_3, type_config; cbn [ui]; rewrite type_into_flag;
        exact H2).
  assert (H4 : isSubmitting (ui typed_4) = false)
    by (unfold typed_4, type_config; cbn [ui]; rewrite type_into_flag;
        exact H3).
  unfold sample_run.
  apply (run_cons _ _ _ typed_1); [exact (type_config_step _ _ _ H0)|].
  apply (run_cons _ _ _ typed_2); [exact (type_config_step _ _ _ H1)|].
  apply (run_cons _ _ _ typed_3); [exact (type_config_step _ _ _ H2)|].
  apply (run_cons _ _ _ typed_4); [exact (type_config_step _ _ _ H3)|].
  apply (run_cons _ _ _ typed_config);
    [exact (type_config_step _ _ _ H4)|].
  apply (run_cons _ _ _ pending_config); [exact typed_config_submit|].
  apply (run_cons _ _ _ (settled_config (Rejected sample_error)));
    [exact (pending_config_settle (Rejected sample_error))|].
  apply (run_cons _ _ _ pending_config); [exact settled_config_submit|].
  apply run_nil.
Qed.

Lemma requests_settle_one_by_one_witness :
  requests sample_run = 2%nat
  /\ settles sample_run = 1%nat
  /\ in_flight pending_config = 1%nat
  /\ (requests sample_run + in_flight initial_config
      = settles sample_run + in_flight pending_config)%nat.
Proof.
  split; [reflexivity|]. split; [reflexivity|]. split; [reflexivity|].
  exact (requests_settle_one_by_one initial_config sample_run pending_config
           reachable_init sample_run_runs).
Defined.

Lemma count_rules_read_leading_digits_witness :
  parseInt (lit "12.5") = parseInt (lit "12")
  /\ validate_inStockCount (lit "12.5") INITIAL_FORM_STATE
     = validate_inStockCount (lit "12") INITIAL_FORM_STATE.
Proof.
  destruct (count_rules_read_leading_digits (lit "12") 46%N (lit "5")
              INITIAL_FORM_STATE) as (Hparse & Hstock & _);
    try discriminate; try reflexivity.
  split; [exact Hparse|exact Hstock].
Defined.

Lemma handleChange_commute_witness :
  exists st12 st21,
    (handleChange initial_state pName (lit "Tea")
       ≫= fun st1 => handleChange st1 unitPrice (lit "2")) = Some st12
    /\ (handleChange initial_state unitPrice (lit "2")
          ≫= fun st2 => handleChange st2 pName (lit "Tea")) = Some st21
    /\ errors st12 = errors st21.
Proof.
  destruct (handleChange_commute initial_state pName unitPrice
              (lit "Tea") (lit "2"))
    as (st12 & st21 & H12 & H21 & Herr & _);
    [discriminate|intros [H _]; discriminate H
    |intros [H _]; discriminate H|].
  exists st12, st21. split; [exact H12|]. split; [exact H21|exact Herr].
Defined.

Lemma onClose_only_when_fulfilled_witness :
  In onClose (snd (handleSubmit_settle (ui submitting_config) Fulfilled)).
Proof.
  apply (proj1 (onClose_only_when_fulfilled _ _ _ _ submitting_config_step)).
  reflexivity.
Defined.

Lemma modal_closes_idle_or_fulfilled_witness :
  showAddForm closed_page = false /\ pending initial_config = None.
Proof.
  destruct (modal_closes_idle_or_fulfilled open_page ClickClose [onClose]
              closed_page initial_config open_page_reachable
              (page_close open_page initial_config eq_refl eq_refl) eq_refl)
    as (_ & Hclosed & _ & Hidle).
  split; [apply Hclosed; left; reflexivity|apply Hidle; reflexivity].
Defined.

Lemma valid_submit_final_state_witness :
  fst (handleSubmit valid_state Fulfilled) = initial_state.
Proof.
  exact (proj1 (valid_submit_final_state valid_state valid_draft_all_valid)).
Defined.

(** X7. In every reachable configuration the submitting flag is up
    exactly when a request is pending. *)
Theorem flag_up_iff_request_pending (c : Config) :
  reachable c -> isSubmitting (ui c) = true <-> pending c <> None.
Proof. apply reachable_flag_pending. Qed.

Lemma flag_up_iff_request_pending_witness :
  pending pending_config = Some typed_body
  /\ isSubmitting (ui pending_config) = true
  /\ pending typed_config = None
  /\ isSubmitting (ui typed_config) <> true.
Proof.
  pose proof (flag_up_iff_request_pending pending_config
                pending_config_reachable) as Hpending.
  pose proof (flag_up_iff_request_pending typed_config
                typed_config_reachable) as Htyped.
  split; [reflexivity|]. split; [apply Hpending; discriminate|].
  split; [reflexivity|].
  intros Hup. apply Htyped in Hup. apply Hup. reflexivity.
Defined.

Lemma controls_disabled_while_pending_witness :
  (map (get_attr "disabled") (controls (render (ui pending_config)))
   = repeat (Some (attr_bool true)) 8
   /\ button_texts (render (ui pending_config))
      = [lit "Cancel"; lit "Adding..."])
  /\ (map (get_attr "disabled") (controls (render (ui typed_config)))
      = repeat (Some (attr_bool false)) 8
      /\ button_texts (render (ui typed_config))
         = [lit "Cancel"; lit "Add Product"]).
Proof.
  split.
  - exact (controls_disabled_while_pending pending_config
             pending_config_reachable).
  - exact (controls_disabled_while_pending typed_config
             typed_config_reachable).
Defined.
